(** * Trigger detection and context normalisation of claude-code-action

    A shallow embedding of [src/github/context.ts] ([parseGitHubContext] and
    the event predicates) and of the trigger validation module
    ([checkContainsTrigger], [escapeRegExp]), together with the part of the
    JavaScript runtime those functions rely on: strings as sequences of
    UTF-16 code units, truthiness, [ToString], [String.prototype.trim],
    [split], [parseInt] and the fragment of [RegExp] the trigger pattern
    uses. *)

From Stdlib Require Import List NArith ZArith Bool String Ascii Lia.
From Stdlib Require Import DecimalPos.
Import ListNotations.

(* ================================================================== *)
(** * The JavaScript values and string operations used by the source *)
(* ================================================================== *)

Module JS.

Local Open Scope N_scope.

(** A JavaScript string is a sequence of UTF-16 code units. *)
Definition char := N.
Definition jstring := list char.

(** ASCII literals. *)
Definition js (s : string) : jstring :=
  map N_of_ascii (list_ascii_of_string s).

Fixpoint str_eqb (a b : jstring) : bool :=
  match a, b with
  | [], [] => true
  | x :: a', y :: b' => (x =? y) && str_eqb a' b'
  | _, _ => false
  end.

(** [WhiteSpace] and [LineTerminator] of ECMAScript: the characters matched
    by [\s] in a regular expression and removed by [trim] and [parseInt]. *)
Definition is_white_space (c : char) : bool :=
  (c =? 9) || (c =? 10) || (c =? 11) || (c =? 12) || (c =? 13) ||
  (c =? 32) || (c =? 160) || (c =? 0x1680) ||
  ((0x2000 <=? c) && (c <=? 0x200a)) ||
  (c =? 0x2028) || (c =? 0x2029) || (c =? 0x202f) || (c =? 0x205f) ||
  (c =? 0x3000) || (c =? 0xfeff).

Fixpoint trimStart (s : jstring) : jstring :=
  match s with
  | [] => []
  | c :: s' => if is_white_space c then trimStart s' else s
  end.

Definition trimEnd (s : jstring) : jstring := rev (trimStart (rev s)).

(** [s.trim()] *)
Definition trim (s : jstring) : jstring := trimEnd (trimStart s).

(** [s.includes(c)] for a one-character needle. *)
Definition includes_char (c : char) (s : jstring) : bool :=
  existsb (N.eqb c) s.

(** [s.split(sep)] for a one-character separator: always at least one
    piece, the empty string splits into one empty piece. *)
Fixpoint split (sep : char) (s : jstring) : list jstring :=
  match s with
  | [] => [[]]
  | c :: s' =>
      if c =? sep then [] :: split sep s'
      else match split sep s' with
           | [] => [[c]]
           | w :: ws => (c :: w) :: ws
           end
  end.

(** [xs.join(sep)] *)
Fixpoint join (sep : jstring) (xs : list jstring) : jstring :=
  match xs with
  | [] => []
  | [x] => x
  | x :: rest => x ++ sep ++ join sep rest
  end.

(** [xs.includes(x)] on an array of strings. *)
Definition array_includes (xs : list jstring) (x : jstring) : bool :=
  existsb (str_eqb x) xs.

(** Numbers.  [Int z] is the Number value of the integer [z]: [z] itself
    when [z] is a safe integer (below 2^53 in magnitude), in general the
    double nearest to [z] (see [nearest_double]), an infinity when [z] is
    beyond the largest double.  [Infinity] is the result of such an
    overflow, with its sign.  [Other] is a Number that is not integral
    (12.5, 1.5e-7), given by the text [Number.prototype.toString] prints for
    it; it is neither zero nor [NaN]. *)
Inductive number :=
| NaN
| Int (z : Z)
| Infinity (negative : bool)
| Other (printed : jstring).

(** The values a payload field can hold.  [JObject] is an object or an
    array whose conversion to a string is the inherited one, given with
    the text that conversion yields: ["[object Object]"] for a plain object,
    the elements joined by commas for an array.  An object is always
    truthy and never equal to a string. *)
Inductive value :=
| JUndefined
| JNull
| JBool (b : bool)
| JNumber (n : number)
| JString (s : jstring)
| JObject (printed : jstring).

(** [ToBoolean] *)
Definition truthy (v : value) : bool :=
  match v with
  | JUndefined | JNull => false
  | JBool b => b
  | JNumber NaN => false
  | JNumber (Int z) => negb (Z.eqb z 0)
  | JNumber (Infinity _) => true
  | JNumber (Other _) => true
  | JString s => match s with [] => false | _ => true end
  | JObject _ => true
  end.

(** [a || b] *)
Definition or_else (a b : value) : value := if truthy a then a else b.

Fixpoint uint_chars (d : Decimal.uint) : jstring :=
  match d with
  | Decimal.Nil => []
  | Decimal.D0 d => 48 :: uint_chars d
  | Decimal.D1 d => 49 :: uint_chars d
  | Decimal.D2 d => 50 :: uint_chars d
  | Decimal.D3 d => 51 :: uint_chars d
  | Decimal.D4 d => 52 :: uint_chars d
  | Decimal.D5 d => 53 :: uint_chars d
  | Decimal.D6 d => 54 :: uint_chars d
  | Decimal.D7 d => 55 :: uint_chars d
  | Decimal.D8 d => 56 :: uint_chars d
  | Decimal.D9 d => 57 :: uint_chars d
  end.

(** The decimal digits of a positive integer. *)
Definition decimal (m : Z) : jstring :=
  match m with
  | Zpos p => uint_chars (Pos.to_uint p)
  | _ => js "0"
  end.

(** The double nearest to a natural number [n], as an integer: [n] itself
    below 2^53; above, [n] rounded to 53 significant bits, ties to the
    even significand; [None] when the rounding overflows to infinity
    (the rounded value reaches 2^1024). *)
Definition nearest_double (n : Z) : option Z :=
  (if n <? 2 ^ 53 then Some n
   else
     let e := Z.log2 n - 52 in
     let q := Z.shiftr n e in
     let r := n - Z.shiftl q e in
     let half := Z.shiftl 1 (e - 1) in
     let q' :=
       if (half <? r) || ((r =? half) && Z.odd q) then q + 1 else q in
     let x := Z.shiftl q' e in
     if 2 ^ 1024 <=? x then None else Some x)%Z.

(** The Number value of an integer. *)
Definition to_number (z : Z) : number :=
  match nearest_double (Z.abs z) with
  | Some x => Int (Z.sgn z * x)
  | None => Infinity (z <? 0)%Z
  end.

(** [v] is a decimal numeral for the double [x]: it rounds to [x]. *)
Definition round_trips (x v : Z) : bool :=
  match nearest_double v with
  | Some y => (y =? x)%Z
  | None => false
  end.

(** The numeral for [x] among the multiples of [unit] next to [x], if one
    rounds to [x]; of two, the one closer to [x], and the one with the
    even last digit when they are as close. *)
Definition candidate (x unit : Z) : option Z :=
  (let lo := (x / unit) * unit in
   let hi := lo + unit in
   match round_trips x lo, round_trips x hi with
   | true, true =>
       Some (if x - lo <? hi - x then lo
             else if hi - x <? x - lo then hi
             else if Z.even (x / unit) then lo else hi)
   | true, false => Some lo
   | false, true => Some hi
   | false, false => None
   end)%Z.

(** The numeral with the fewest significant digits that rounds to the
    double [x]: the most trailing zeros are tried first. *)
Fixpoint shortest (x : Z) (zeros : nat) : Z :=
  match zeros with
  | O => x
  | S z =>
      match candidate x (10 ^ Z.of_nat zeros)%Z with
      | Some v => v
      | None => shortest x z
      end
  end.

Fixpoint drop_zeros (s : jstring) : jstring :=
  match s with
  | c :: s' => if c =? 48 then drop_zeros s' else s
  | [] => []
  end.

(** [Number::toString] on an integral double of 2^53 or more: its
    shortest numeral, written out in full up to 21 digits and with an
    exponent beyond. *)
Definition print_large (x : Z) : jstring :=
  let ds := decimal (shortest x (pred (List.length (decimal x)))) in
  let n := List.length ds in
  if (n <=? 21)%nat then ds
  else
    match rev (drop_zeros (rev ds)) with
    | [] => ds
    | [d] => d :: js "e+" ++ decimal (Z.of_nat (n - 1))
    | d :: rest => d :: 46 :: rest ++ js "e+" ++ decimal (Z.of_nat (n - 1))
    end.

(** The text of the Number value of a positive integer. *)
Definition print_magnitude (m : Z) : jstring :=
  match nearest_double m with
  | None => js "Infinity"
  | Some x => if (x <? 2 ^ 53)%Z then decimal x else print_large x
  end.

(** [Number.prototype.toString] *)
Definition number_toString (n : number) : jstring :=
  match n with
  | NaN => js "NaN"
  | Int Z0 => js "0"
  | Int (Zpos p) => print_magnitude (Zpos p)
  | Int (Zneg p) => 45 :: print_magnitude (Zpos p)
  | Infinity false => js "Infinity"
  | Infinity true => js "-Infinity"
  | Other printed => printed
  end.

(** [ToString], as applied by template literals, [RegExp.prototype.test]
    and [toString()]. *)
Definition toString (v : value) : jstring :=
  match v with
  | JUndefined => js "undefined"
  | JNull => js "null"
  | JBool true => js "true"
  | JBool false => js "false"
  | JNumber n => number_toString n
  | JString s => s
  | JObject printed => printed
  end.

(** [v === s] for a string [s]. *)
Definition strict_eq_string (v : value) (s : jstring) : bool :=
  match v with
  | JString t => str_eqb t s
  | _ => false
  end.

Definition is_digit (c : char) : bool := (48 <=? c) && (c <=? 57).

(** The value of the longest prefix of decimal digits; [None] when the
    string does not start with a digit. *)
Fixpoint parse_digits (acc : option Z) (s : jstring) : option Z :=
  match s with
  | [] => acc
  | c :: s' =>
      if is_digit c
      then parse_digits
             (Some (10 * match acc with Some a => a | None => 0 end
                    + Z.of_N (c - 48))%Z) s'
      else acc
  end.

(** [parseInt(s, 10)]: leading white space is skipped, one sign is read,
    then the longest prefix of decimal digits; [NaN] when there is none,
    else the Number value of the signed integer they spell. *)
Definition parseInt10 (s : jstring) : number :=
  let s1 := trimStart s in
  let '(sign, s2) :=
    match s1 with
    | c :: r => if c =? 45 then ((-1)%Z, r)
                else if c =? 43 then (1%Z, r) else (1%Z, s1)
    | [] => (1%Z, [])
    end in
  match parse_digits None s2 with
  | None => NaN
  | Some n => to_number (sign * n)
  end.

(** Exceptions and results of code that can throw. *)
Inductive exn :=
| TypeError
| SyntaxError
| Error (message : jstring).

Inductive result (A : Type) :=
| Ok (a : A)
| Throw (e : exn).

Arguments Ok {A} a.
Arguments Throw {A} e.

Definition bind {A B} (m : result A) (k : A -> result B) : result B :=
  match m with
  | Ok a => k a
  | Throw e => Throw e
  end.

(** Reading a property of [o.f] where [o] may be [undefined]: a
    [TypeError] when it is. *)
Definition member {A} (o : option A) : result A :=
  match o with
  | Some a => Ok a
  | None => Throw TypeError
  end.

End JS.

Export JS.

Notation "'let*' x ':=' m 'in' k" := (JS.bind m (fun x => k))
  (at level 10, x name, m at level 100, k at level 200).

(* ================================================================== *)
(** * The fragment of [RegExp] used by the trigger pattern *)
(* ================================================================== *)

Module RegExp.

Local Open Scope N_scope.

(** Patterns without quantifiers: characters, classes, the assertions
    [^] and [$] (no [m] flag), sequence and disjunction. *)
Inductive regex :=
| Empty
| Char (c : char)
| Class (p : char -> bool)
| LineStart
| LineEnd
| Seq (r1 r2 : regex)
| Alt (r1 r2 : regex).

(** Backtracking matcher in continuation style.  The position in the
    input is kept as the characters before it (most recent first) and the
    characters after it. *)
Fixpoint matcher (r : regex) (before after : jstring)
    (k : jstring -> jstring -> bool) : bool :=
  match r with
  | Empty => k before after
  | Char c =>
      match after with
      | d :: rest => (d =? c) && k (d :: before) rest
      | [] => false
      end
  | Class p =>
      match after with
      | d :: rest => p d && k (d :: before) rest
      | [] => false
      end
  | LineStart => match before with [] => k before after | _ => false end
  | LineEnd => match after with [] => k before after | _ => false end
  | Seq r1 r2 => matcher r1 before after (fun b a => matcher r2 b a k)
  | Alt r1 r2 => matcher r1 before after k || matcher r2 before after k
  end.

(** A match is attempted at every position from the left, the end of the
    input included. *)
Fixpoint search (r : regex) (before after : jstring) : bool :=
  matcher r before after (fun _ _ => true) ||
  match after with
  | [] => false
  | c :: rest => search r (c :: before) rest
  end.

(** [r.test(s)] for a pattern without the [g] and [y] flags. *)
Definition test (r : regex) (s : jstring) : bool := search r [] s.

(** [SyntaxCharacter]: one of [^ $ \ . * + ? ( ) [ ] { } |]. *)
Definition is_syntax_char (c : char) : bool :=
  existsb (N.eqb c) (js "^$\.*+?()[]{}|").

Definition backslash : char := 92.

(** Parsing a run of pattern characters and identity escapes; a bare
    syntax character is not part of such a run. *)
Fixpoint parse_literal (s : jstring) : option regex :=
  match s with
  | [] => Some Empty
  | c :: s' =>
      if c =? backslash then
        match s' with
        | d :: s'' =>
            if is_syntax_char d
            then option_map (Seq (Char d)) (parse_literal s'')
            else None
        | [] => None
        end
      else if is_syntax_char c then None
      else option_map (Seq (Char c)) (parse_literal s')
  end.

(** The word made of the characters of [p], one after the other. *)
Fixpoint literal (p : jstring) : regex :=
  match p with
  | [] => Empty
  | c :: p' => Seq (Char c) (literal p')
  end.

End RegExp.

(* ================================================================== *)
(** * [src/github/context.ts] *)
(* ================================================================== *)

(** The webhook payload, with the fields the source reads.  A field that
    holds an object is [None] when it is absent ([undefined] or [null]);
    a leaf field holds a [value]. *)
Record User := { user_login : value }.

Record Label := { label_name : value }.

Record Issue := {
  issue_number : number;
  issue_title : value;
  issue_body : value;
  issue_assignee : option User;
  issue_pull_request : value
}.

Record PullRequest := {
  pr_number : number;
  pr_title : value;
  pr_body : value
}.

Record Review := { review_body : value }.

Record Comment := { comment_body : value }.

Record ClientPayload := {
  cp_pr_number : value;
  cp_issue_number : value;
  cp_prompt : value;
  cp_is_pr : value
}.

Record DispatchInputs := {
  in_pr_number : value;
  in_prompt : value;
  in_is_pr : value
}.

Record Payload := {
  action : option jstring;
  issue : option Issue;
  pull_request : option PullRequest;
  review : option Review;
  comment : option Comment;
  label : option Label;
  client_payload : option ClientPayload;
  inputs : option DispatchInputs
}.

(** [o?.f] *)
Definition opt_field {A} (f : A -> value) (o : option A) : value :=
  match o with
  | Some a => f a
  | None => JUndefined
  end.

(** The ambient state the source reads: [process.env] and the action
    inputs returned by [core.getInput] (a string, empty when unset). *)
Record Runtime := {
  env : string -> option jstring;
  getInput : string -> jstring
}.

(** [process.env.NAME ?? fallback] *)
Definition env_or (rt : Runtime) (name : string) (fallback : jstring)
  : jstring :=
  match env rt name with
  | Some s => s
  | None => fallback
  end.

(** [process.env.NAME] as a value. *)
Definition env_value (rt : Runtime) (name : string) : value :=
  match env rt name with
  | Some s => JString s
  | None => JUndefined
  end.

(** [github.context] *)
Module Github.
Record Context := {
  eventName : jstring;
  payload : Payload;
  repo_owner : jstring;
  repo_repo : jstring;
  actor : jstring
}.
End Github.

Record Repository := {
  owner : jstring;
  repo : jstring;
  full_name : jstring
}.

Record Inputs := {
  triggerPhrase : jstring;
  assigneeTrigger : jstring;
  labelTriggers : list jstring;
  allowedTools : list jstring;
  disallowedTools : list jstring;
  customInstructions : jstring;
  directPrompt : jstring;
  baseBranch : option jstring
}.

Record ParsedGitHubContext := {
  runId : option jstring;
  eventName : jstring;
  eventAction : option jstring;
  repository : Repository;
  actor : jstring;
  payload : Payload;
  entityNumber : number;
  isPR : bool;
  ctx_inputs : Inputs
}.

Local Open Scope N_scope.

Definition newline : char := 10.
Definition comma : char := 44.

Definition non_empty (s : jstring) : bool :=
  match s with [] => false | _ => true end.

(** [.split(sep).map(x => x.trim()).filter(x => x.length > 0)] *)
Definition split_trim_filter (sep : char) (s : jstring) : list jstring :=
  filter non_empty (map trim (split sep s)).

(** The [labelTriggers] initialiser. *)
Definition parse_labelTriggers (rt : Runtime) : list jstring :=
  let labelTriggerInput := env_or rt "LABEL_TRIGGER" [] in
  if negb (non_empty labelTriggerInput) then []
  else if includes_char newline labelTriggerInput
  then split_trim_filter newline labelTriggerInput
  else split_trim_filter comma labelTriggerInput.

(** The [allowedTools] initialiser. *)
Definition parse_allowedTools (rt : Runtime) : list jstring :=
  split_trim_filter comma (env_or rt "ALLOWED_TOOLS" []).

(** The [disallowedTools] initialiser. *)
Definition parse_disallowedTools (rt : Runtime) : list jstring :=
  split_trim_filter comma (env_or rt "DISALLOWED_TOOLS" []).

Definition supported_event_names : list jstring :=
  [ js "issues"; js "issue_comment"; js "pull_request";
    js "pull_request_review"; js "pull_request_review_comment";
    js "repository_dispatch"; js "workflow_dispatch" ].

(** [commonFields], completed with the three fields every case of the
    [switch] adds: the payload (always [context.payload]), the entity
    number and the PR flag. *)
Definition commonFields (rt : Runtime) (context : Github.Context)
    (entityNumber : number) (isPR : bool) : ParsedGitHubContext :=
  {| runId := env rt "GITHUB_RUN_ID";
     eventName := Github.eventName context;
     eventAction := action (Github.payload context);
     repository :=
       {| owner := Github.repo_owner context;
          repo := Github.repo_repo context;
          full_name := Github.repo_owner context ++ js "/"
                       ++ Github.repo_repo context |};
     actor := Github.actor context;
     payload := Github.payload context;
     entityNumber := entityNumber;
     isPR := isPR;
     ctx_inputs :=
       {| triggerPhrase := env_or rt "TRIGGER_PHRASE" (js "@claude");
          assigneeTrigger := env_or rt "ASSIGNEE_TRIGGER" [];
          labelTriggers := parse_labelTriggers rt;
          allowedTools := parse_allowedTools rt;
          disallowedTools := parse_disallowedTools rt;
          customInstructions := env_or rt "CUSTOM_INSTRUCTIONS" [];
          directPrompt := env_or rt "DIRECT_PROMPT" [];
          baseBranch := env rt "BASE_BRANCH" |} |}.

Definition parseGitHubContext (rt : Runtime) (context : Github.Context)
  : result ParsedGitHubContext :=
  let p := Github.payload context in
  let commonFields := commonFields rt context in
  let name := Github.eventName context in
  if str_eqb name (js "issues") then
    let* i := member (issue p) in
    Ok (commonFields (issue_number i) false)
  else if str_eqb name (js "issue_comment") then
    let* i := member (issue p) in
    Ok (commonFields (issue_number i) (truthy (issue_pull_request i)))
  else if str_eqb name (js "pull_request") then
    let* pr := member (pull_request p) in
    Ok (commonFields (pr_number pr) true)
  else if str_eqb name (js "pull_request_review") then
    let* pr := member (pull_request p) in
    Ok (commonFields (pr_number pr) true)
  else if str_eqb name (js "pull_request_review_comment") then
    let* pr := member (pull_request p) in
    Ok (commonFields (pr_number pr) true)
  else if str_eqb name (js "repository_dispatch") then
    let prNumber := opt_field cp_pr_number (client_payload p) in
    let isPR :=
      match opt_field cp_is_pr (client_payload p) with
      | JBool true => true
      | _ => false
      end || truthy prNumber in
    Ok (commonFields
          (if truthy prNumber then parseInt10 (toString prNumber)
           else Int 0)
          isPR)
  else if str_eqb name (js "workflow_dispatch") then
    let prNumber := opt_field in_pr_number (inputs p) in
    let isPR :=
      strict_eq_string (opt_field in_is_pr (inputs p)) (js "true")
      || truthy prNumber in
    Ok (commonFields
          (if truthy prNumber then parseInt10 (toString prNumber)
           else Int 0)
          isPR)
  else
    Throw (Error (js "Unsupported event type: " ++ name)).

Definition isIssuesEvent (context : ParsedGitHubContext) : bool :=
  str_eqb (eventName context) (js "issues").

Definition isIssueCommentEvent (context : ParsedGitHubContext) : bool :=
  str_eqb (eventName context) (js "issue_comment").

Definition isPullRequestEvent (context : ParsedGitHubContext) : bool :=
  str_eqb (eventName context) (js "pull_request").

Definition isPullRequestReviewEvent (context : ParsedGitHubContext) : bool :=
  str_eqb (eventName context) (js "pull_request_review").

Definition isPullRequestReviewCommentEvent (context : ParsedGitHubContext)
  : bool :=
  str_eqb (eventName context) (js "pull_request_review_comment").

Definition isWorkflowDispatchEvent (context : ParsedGitHubContext) : bool :=
  str_eqb (eventName context) (js "workflow_dispatch").

Definition isRepositoryDispatchEvent (context : ParsedGitHubContext) : bool :=
  str_eqb (eventName context) (js "repository_dispatch").

(* ================================================================== *)
(** * The trigger validation module *)
(* ================================================================== *)

(** [string.replace(/[.*+?^${}()|[\]\\]/g, "\\$&")]: a backslash is put
    in front of every character of the class. *)
Definition escapeRegExp (s : jstring) : jstring :=
  flat_map
    (fun c => if existsb (N.eqb c) (js ".*+?^${}()|[]\")
              then [RegExp.backslash; c] else [c])
    s.

(** The class [[\s.,!?;:]]. *)
Definition trigger_follow_class (c : char) : bool :=
  is_white_space c || existsb (N.eqb c) (js ".,!?;:").

(** [new RegExp(`(^|\\s)${escapeRegExp(triggerPhrase)}([\\s.,!?;:]|$)`)]:
    the two groups are fixed; the text between them is read as a run of
    pattern characters and identity escapes.  A text that is not such a
    run is outside the fragment of patterns modelled here and is reported
    as a [SyntaxError]; the escaped phrase always is such a run (see
    [parse_literal_escapeRegExp] below). *)
Definition trigger_regex (triggerPhrase : jstring) : result RegExp.regex :=
  match RegExp.parse_literal (escapeRegExp triggerPhrase) with
  | Some phrase =>
      Ok (RegExp.Seq
            (RegExp.Alt RegExp.LineStart (RegExp.Class is_white_space))
            (RegExp.Seq phrase
               (RegExp.Alt (RegExp.Class trigger_follow_class)
                           RegExp.LineEnd)))
  | None => Throw SyntaxError
  end.

(** What a call does: the boolean it returns and the line it logs. *)
Record Outcome := {
  returned : bool;
  logged : jstring
}.

Definition action_is (context : ParsedGitHubContext) (a : jstring) : bool :=
  match eventAction context with
  | Some x => str_eqb x a
  | None => false
  end.

(** [assigneeTrigger.replace(/^@/, ...)] with the empty replacement: one
    leading [@] is removed. *)
Definition strip_at (s : jstring) : jstring :=
  match s with
  | c :: s' => if (c =? 64)%N then s' else s
  | [] => []
  end.

(** A rule either returns from the function or falls through to the
    code after it. *)
Definition rule := result (option Outcome).

Definition returns (b : bool) (line : jstring) : rule :=
  Ok (Some {| returned := b; logged := line |}).

Definition falls_through : rule := Ok None.

Definition and_then (r : rule) (rest : result Outcome) : result Outcome :=
  let* o := r in
  match o with
  | Some out => Ok out
  | None => rest
  end.

Definition quoted (s : jstring) : jstring := js "'" ++ s ++ js "'".

Section Rules.

Variable rt : Runtime.
Variable context : ParsedGitHubContext.

Let p := payload context.
Let cfg := ctx_inputs context.

Definition workflow_dispatch_rule : result Outcome :=
  let prNumber :=
    or_else (or_else (opt_field in_pr_number (inputs p))
                     (JString (getInput rt "pr_number")))
            (env_value rt "PR_NUMBER") in
  if truthy prNumber then
    Ok {| returned := true;
          logged := js "Workflow dispatch triggered for PR #"
                    ++ toString prNumber |}
  else
    let workflowPrompt :=
      or_else (or_else (opt_field in_prompt (inputs p))
                       (JString (getInput rt "prompt")))
              (env_value rt "PROMPT") in
    if truthy workflowPrompt then
      Ok {| returned := true;
            logged := js "Workflow dispatch with direct prompt" |}
    else
      Ok {| returned := false;
            logged := js "Workflow dispatch triggered but "
                      ++ js "no PR number or prompt provided" |}.

Definition repository_dispatch_rule : result Outcome :=
  let prNumber := opt_field cp_pr_number (client_payload p) in
  let issueNumber := opt_field cp_issue_number (client_payload p) in
  if truthy prNumber then
    Ok {| returned := true;
          logged := js "Repository dispatch triggered for PR #"
                    ++ toString prNumber |}
  else if truthy issueNumber then
    Ok {| returned := true;
          logged := js "Repository dispatch triggered for issue #"
                    ++ toString issueNumber |}
  else
    let repositoryPrompt := opt_field cp_prompt (client_payload p) in
    if truthy repositoryPrompt then
      Ok {| returned := true;
            logged := js "Repository dispatch with direct prompt" |}
    else
      Ok {| returned := false;
            logged := js "Repository dispatch triggered but "
                      ++ js "no PR number, issue number or prompt provided" |}.

Definition assignee_rule : rule :=
  if isIssuesEvent context && action_is context (js "assigned") then
    let triggerUser := strip_at (assigneeTrigger cfg) in
    let* i := member (issue p) in
    let assigneeUsername :=
      or_else (opt_field user_login (issue_assignee i)) (JString []) in
    if non_empty triggerUser && strict_eq_string assigneeUsername triggerUser
    then returns true
           (js "Issue assigned to trigger user " ++ quoted triggerUser)
    else falls_through
  else falls_through.

Definition label_rule : rule :=
  if isIssuesEvent context && action_is context (js "labeled") then
    let labelName := or_else (opt_field label_name (label p)) (JString []) in
    if (0 <? List.length (labelTriggers cfg))%nat && truthy labelName then
      if match labelName with
         | JString s => array_includes (labelTriggers cfg) s
         | _ => false
         end
      then returns true
             (js "Issue labeled with trigger label "
              ++ quoted (toString labelName)
              ++ js " (from trigger list: ["
              ++ join (js ", ") (labelTriggers cfg) ++ js "])")
      else falls_through
    else falls_through
  else falls_through.

Definition issue_opened_rule : rule :=
  if isIssuesEvent context && action_is context (js "opened") then
    let* i := member (issue p) in
    let issueBody := or_else (issue_body i) (JString []) in
    let issueTitle := or_else (issue_title i) (JString []) in
    let* regex := trigger_regex (triggerPhrase cfg) in
    if RegExp.test regex (toString issueBody) then
      returns true
        (js "Issue body contains exact trigger phrase "
         ++ quoted (triggerPhrase cfg))
    else if RegExp.test regex (toString issueTitle) then
      returns true
        (js "Issue title contains exact trigger phrase "
         ++ quoted (triggerPhrase cfg))
    else falls_through
  else falls_through.

Definition pull_request_rule : rule :=
  if isPullRequestEvent context then
    let* pr := member (pull_request p) in
    let prBody := or_else (pr_body pr) (JString []) in
    let prTitle := or_else (pr_title pr) (JString []) in
    let* regex := trigger_regex (triggerPhrase cfg) in
    if RegExp.test regex (toString prBody) then
      returns true
        (js "Pull request body contains exact trigger phrase "
         ++ quoted (triggerPhrase cfg))
    else if RegExp.test regex (toString prTitle) then
      returns true
        (js "Pull request title contains exact trigger phrase "
         ++ quoted (triggerPhrase cfg))
    else falls_through
  else falls_through.

Definition review_rule : rule :=
  if isPullRequestReviewEvent context
     && (action_is context (js "submitted")
         || action_is context (js "edited")) then
    let* r := member (review p) in
    let reviewBody := or_else (review_body r) (JString []) in
    let* regex := trigger_regex (triggerPhrase cfg) in
    if RegExp.test regex (toString reviewBody) then
      returns true
        (js "Pull request review contains exact trigger phrase "
         ++ quoted (triggerPhrase cfg))
    else falls_through
  else falls_through.

Definition comment_rule : rule :=
  if isIssueCommentEvent context || isPullRequestReviewCommentEvent context
  then
    let* c := member (comment p) in
    let commentBody := comment_body c in
    let* regex := trigger_regex (triggerPhrase cfg) in
    if RegExp.test regex (toString commentBody) then
      returns true
        (js "Comment contains exact trigger phrase "
         ++ quoted (triggerPhrase cfg))
    else falls_through
  else falls_through.

Definition checkContainsTrigger : result Outcome :=
  if non_empty (directPrompt cfg) then
    Ok {| returned := true;
          logged := js "Direct prompt provided, triggering action" |}
  else if isWorkflowDispatchEvent context then workflow_dispatch_rule
  else if isRepositoryDispatchEvent context then repository_dispatch_rule
  else
    and_then assignee_rule
   (and_then label_rule
   (and_then issue_opened_rule
   (and_then pull_request_rule
   (and_then review_rule
   (and_then comment_rule
      (Ok {| returned := false;
             logged := js "No trigger was met for "
                       ++ triggerPhrase cfg |})))))).

End Rules.

(** What a completed call of [checkTriggerAction] has done: the value it
    resolves to, the output it has set through [core.setOutput] and the
    line logged on the way. *)
Record ActionRun := {
  resolved : bool;
  output_name : string;
  output_value : jstring;
  run_logged : jstring
}.

(** [checkTriggerAction]; an exception of [checkContainsTrigger] rejects
    the promise before any output is set. *)
Definition checkTriggerAction (rt : Runtime) (context : ParsedGitHubContext)
  : result ActionRun :=
  let* o := checkContainsTrigger rt context in
  let containsTrigger := returned o in
  Ok {| resolved := containsTrigger;
        output_name := "contains_trigger";
        output_value := toString (JBool containsTrigger);
        run_logged := logged o |}.

(* ================================================================== *)
(** * Specification-side definitions *)
(* ================================================================== *)

(** The trigger-phrase rule in the words of the specification: the phrase
    occurs in the text, at its very start or right after a character of
    [preceded], and is followed by the end of the text or by a character
    of [followed]. *)
Definition phrase_occurs (preceded followed : char -> bool)
    (phrase text : jstring) : Prop :=
  exists pre post,
    text = pre ++ phrase ++ post
    /\ (pre = [] \/ exists pre' c, pre = pre' ++ [c] /\ preceded c = true)
    /\ (post = [] \/ exists c post', post = c :: post' /\ followed c = true).

(** The end boundary of [phrase_occurs] alone. *)
Definition follows_ok (followed : char -> bool) (post : jstring) : Prop :=
  post = [] \/ exists c post', post = c :: post' /\ followed c = true.

(** The shape of the trigger pattern, for any two classes and a phrase
    taken literally. *)
Definition bounded (preceded followed : char -> bool) (phrase : jstring)
  : RegExp.regex :=
  RegExp.Seq (RegExp.Alt RegExp.LineStart (RegExp.Class preceded))
    (RegExp.Seq (RegExp.literal phrase)
       (RegExp.Alt (RegExp.Class followed) RegExp.LineEnd)).

(** The following characters the specification lists: the space and
    [. , ! ? ; :]. *)
Definition listed_followers (c : char) : bool :=
  existsb (N.eqb c) (js " .,!?;:").

(** The delimited-list policy in the words of the specification. *)
Definition delimited_list_policy (raw : jstring) : list jstring :=
  match raw with
  | [] => []
  | _ =>
      let pieces :=
        if includes_char newline raw then split newline raw
        else split comma raw in
      filter non_empty (map trim pieces)
  end.

(** A payload has the shape of its event kind when the objects that kind
    always carries are there. *)
Definition well_shaped (name : jstring) (p : Payload) : bool :=
  let has {A} (o : option A) :=
    match o with Some _ => true | None => false end in
  if str_eqb name (js "issues") then has (issue p)
  else if str_eqb name (js "issue_comment") then
    has (issue p) && has (comment p)
  else if str_eqb name (js "pull_request") then has (pull_request p)
  else if str_eqb name (js "pull_request_review") then
    has (pull_request p) && has (review p)
  else if str_eqb name (js "pull_request_review_comment") then
    has (pull_request p) && has (comment p)
  else true.

(** The PR number a dispatch event carries, if the event is one. *)
Definition dispatch_pr_number (name : jstring) (p : Payload) : option value :=
  if str_eqb name (js "repository_dispatch")
  then Some (opt_field cp_pr_number (client_payload p))
  else if str_eqb name (js "workflow_dispatch")
  then Some (opt_field in_pr_number (inputs p))
  else None.

Definition starts_with_digit (s : jstring) : bool :=
  match s with
  | c :: _ => is_digit c
  | [] => false
  end.

(** A field is missing when it is [undefined] or [null]. *)
Definition is_missing (v : value) : bool :=
  match v with
  | JUndefined | JNull => true
  | _ => false
  end.

(** A missing field replaced by the empty string. *)
Definition blank (v : value) : value :=
  if is_missing v then JString [] else v.

(** The payload in which every missing text field that a rule guards
    with a fallback to the empty string holds the empty string instead:
    issue and pull request body and title, review body, label name,
    assignee login.  The comment body is left as it is. *)
Definition blank_payload (p : Payload) : Payload :=
  {| action := action p;
     issue :=
       option_map
         (fun i =>
            {| issue_number := issue_number i;
               issue_title := blank (issue_title i);
               issue_body := blank (issue_body i);
               issue_assignee :=
                 Some {| user_login :=
                           blank (opt_field user_login (issue_assignee i)) |};
               issue_pull_request := issue_pull_request i |})
         (issue p);
     pull_request :=
       option_map
         (fun pr =>
            {| pr_number := pr_number pr;
               pr_title := blank (pr_title pr);
               pr_body := blank (pr_body pr) |})
         (pull_request p);
     review :=
       option_map (fun r => {| review_body := blank (review_body r) |})
         (review p);
     comment := comment p;
     label := Some {| label_name := blank (opt_field label_name (label p)) |};
     client_payload := client_payload p;
     inputs := inputs p |}.

Definition with_payload (context : ParsedGitHubContext) (p : Payload)
  : ParsedGitHubContext :=
  {| runId := runId context;
     eventName := eventName context;
     eventAction := eventAction context;
     repository := repository context;
     actor := actor context;
     payload := p;
     entityNumber := entityNumber context;
     isPR := isPR context;
     ctx_inputs := ctx_inputs context |}.

(** The boolean a run returns, if it returns. *)
Definition decision (r : result Outcome) : option bool :=
  match r with
  | Ok o => Some (returned o)
  | Throw _ => None
  end.

(** A value is present somewhere in the workflow-dispatch lookup chain:
    the dispatch input, the action input of the same name, the
    environment variable. *)
Definition chain_present (rt : Runtime) (from_inputs : value)
    (input_name env_name : string) : bool :=
  truthy from_inputs
  || non_empty (getInput rt input_name)
  || match env rt env_name with Some s => non_empty s | None => false end.

(** The trigger phrase occurs in a text between the boundaries of the
    trigger pattern. *)
Definition triggers_in (phrase text : jstring) : Prop :=
  phrase_occurs is_white_space trigger_follow_class phrase text.

(** The text a guarded field hands to the matcher. *)
Definition text_of (v : value) : jstring :=
  toString (or_else v (JString [])).

(** The object [parseGitHubContext] reads the entity number from is
    there: the issue for [issues] and [issue_comment], the pull request
    for the three pull request kinds. *)
Definition entity_present (name : jstring) (p : Payload) : bool :=
  if str_eqb name (js "issues") || str_eqb name (js "issue_comment")
  then match issue p with Some _ => true | None => false end
  else if str_eqb name (js "pull_request")
          || str_eqb name (js "pull_request_review")
          || str_eqb name (js "pull_request_review_comment")
  then match pull_request p with Some _ => true | None => false end
  else true.

(** A rule that applies to the context reads a field of an object the
    payload does not have. *)
Definition reads_missing_object (context : ParsedGitHubContext) : bool :=
  let p := payload context in
  let missing {A} (o : option A) :=
    match o with Some _ => false | None => true end in
  (isIssuesEvent context
   && (action_is context (js "assigned") || action_is context (js "opened"))
   && missing (issue p))
  || (isPullRequestEvent context && missing (pull_request p))
  || (isPullRequestReviewEvent context
      && (action_is context (js "submitted")
          || action_is context (js "edited"))
      && missing (review p))
  || ((isIssueCommentEvent context
       || isPullRequestReviewCommentEvent context)
      && missing (comment p)).

(** The seven event predicates, evaluated on one context. *)
Definition event_predicates (context : ParsedGitHubContext) : list bool :=
  [ isIssuesEvent context; isIssueCommentEvent context;
    isPullRequestEvent context; isPullRequestReviewEvent context;
    isPullRequestReviewCommentEvent context;
    isWorkflowDispatchEvent context; isRepositoryDispatchEvent context ].

(** A dispatch event. *)
Definition is_dispatch (name : jstring) : bool :=
  str_eqb name (js "repository_dispatch")
  || str_eqb name (js "workflow_dispatch").

(* ================================================================== *)
(** * Sample runs *)
(* ================================================================== *)

(** A runtime in which one environment variable is set and nothing else. *)
Definition env_only (name : string) (v : jstring) : Runtime :=
  {| env := fun n => if String.eqb n name then Some v else None;
     getInput := fun _ => [] |}.

(** A runtime with nothing set. *)
Definition bare_runtime : Runtime :=
  {| env := fun _ => None; getInput := fun _ => [] |}.

(** ["a\nb\nc"] *)
Definition a_b_c_lines : jstring :=
  js "a" ++ [newline] ++ js "b" ++ [newline] ++ js "c".

(** ["a\n\nb\n\nc\n"] *)
Definition a_b_c_blank_lines : jstring :=
  js "a" ++ [newline; newline] ++ js "b" ++ [newline; newline]
  ++ js "c" ++ [newline].

(** A comment that starts with the phrase and goes on on the next line. *)
Definition two_line_comment : jstring :=
  js "@claude" ++ [newline] ++ js "please help".

Definition empty_payload : Payload :=
  {| action := None; issue := None; pull_request := None; review := None;
     comment := None; label := None; client_payload := None;
     inputs := None |}.

Definition sample_event (name : jstring) (p : Payload) : Github.Context :=
  {| Github.eventName := name;
     Github.payload := p;
     Github.repo_owner := js "octo";
     Github.repo_repo := js "demo";
     Github.actor := js "alice" |}.

(** A [workflow_dispatch] payload whose [pr_number] input is [v]. *)
Definition workflow_payload (v : value) : Payload :=
  {| action := None; issue := None; pull_request := None; review := None;
     comment := None; label := None; client_payload := None;
     inputs := Some {| in_pr_number := v; in_prompt := JUndefined;
                       in_is_pr := JUndefined |} |}.

Definition sample_inputs (phrase assignee direct : jstring)
    (labels : list jstring) : Inputs :=
  {| triggerPhrase := phrase;
     assigneeTrigger := assignee;
     labelTriggers := labels;
     allowedTools := [];
     disallowedTools := [];
     customInstructions := [];
     directPrompt := direct;
     baseBranch := None |}.

Definition sample_context (name : jstring) (p : Payload) (cfg : Inputs)
  : ParsedGitHubContext :=
  {| runId := Some (js "1234567890");
     eventName := name;
     eventAction := action p;
     repository := {| owner := js "octo"; repo := js "demo";
                      full_name := js "octo/demo" |};
     actor := js "alice";
     payload := p;
     entityNumber := Int 1;
     isPR := false;
     ctx_inputs := cfg |}.

(** An [issues] payload. *)
Definition issue_payload (act : jstring) (title body : value)
    (assignee : option User) : Payload :=
  {| action := Some act;
     issue := Some {| issue_number := Int 1; issue_title := title;
                      issue_body := body; issue_assignee := assignee;
                      issue_pull_request := JUndefined |};
     pull_request := None; review := None; comment := None; label := None;
     client_payload := None; inputs := None |}.

(** An [issue_comment] payload on an issue. *)
Definition comment_payload (body : value) : Payload :=
  {| action := Some (js "created");
     issue := Some {| issue_number := Int 1;
                      issue_title := JString (js "Fix bug");
                      issue_body := JNull; issue_assignee := None;
                      issue_pull_request := JUndefined |};
     pull_request := None; review := None;
     comment := Some {| comment_body := body |};
     label := None; client_payload := None; inputs := None |}.

(** A [repository_dispatch] payload. *)
Definition repository_payload (pr iss prompt : value) : Payload :=
  {| action := None; issue := None; pull_request := None; review := None;
     comment := None; label := None;
     client_payload := Some {| cp_pr_number := pr; cp_issue_number := iss;
                               cp_prompt := prompt; cp_is_pr := JUndefined |};
     inputs := None |}.

(** An issue assigned to [login], with [trigger] as the configured
    assignee trigger. *)
Definition assigned_context (trigger login : jstring) : ParsedGitHubContext :=
  sample_context (js "issues")
    (issue_payload (js "assigned") (JString (js "Fix bug")) JNull
       (Some {| user_login := JString login |}))
    (sample_inputs (js "@claude") trigger [] []).

(** An [issues] payload with action ["labeled"] and the label [name]. *)
Definition labeled_payload (name : value) : Payload :=
  {| action := Some (js "labeled");
     issue := Some {| issue_number := Int 1;
                      issue_title := JString (js "Fix bug");
                      issue_body := JNull; issue_assignee := None;
                      issue_pull_request := JUndefined |};
     pull_request := None; review := None; comment := None;
     label := Some {| label_name := name |};
     client_payload := None; inputs := None |}.

(** A [pull_request] payload. *)
Definition pr_payload (act : jstring) (title body : value) : Payload :=
  {| action := Some act; issue := None;
     pull_request := Some {| pr_number := Int 5; pr_title := title;
                             pr_body := body |};
     review := None; comment := None; label := None;
     client_payload := None; inputs := None |}.

(** A [pull_request_review] payload. *)
Definition review_payload (act : jstring) (body : value) : Payload :=
  {| action := Some act; issue := None;
     pull_request := Some {| pr_number := Int 5;
                             pr_title := JString (js "Add feature");
                             pr_body := JNull |};
     review := Some {| review_body := body |};
     comment := None; label := None;
     client_payload := None; inputs := None |}.

Definition plain_inputs : Inputs := sample_inputs (js "@claude") [] [] [].

(* ================================================================== *)
(** * Strings *)
(* ================================================================== *)

Lemma str_eqb_spec (a b : jstring) : str_eqb a b = true <-> a = b.
Proof.
  revert b; induction a as [|x a IH]; intros [|y b]; simpl;
    try (split; [discriminate | discriminate]); try tauto.
  rewrite andb_true_iff, N.eqb_eq, IH.
  split; [intros [-> ->]; reflexivity | intros H; inversion H; auto].
Qed.

Lemma str_eqb_refl (a : jstring) : str_eqb a a = true.
Proof. apply str_eqb_spec; reflexivity. Qed.

Lemma str_eqb_neq (a b : jstring) : str_eqb a b = false <-> a <> b.
Proof.
  rewrite <- str_eqb_spec. destruct (str_eqb a b); split; congruence.
Qed.

Lemma non_empty_spec (s : jstring) : non_empty s = true <-> s <> [].
Proof. destruct s; simpl; split; congruence. Qed.

Lemma existsb_same_members (c : char) (l1 l2 : list char) :
  (forall x, In x l1 <-> In x l2) ->
  existsb (N.eqb c) l1 = existsb (N.eqb c) l2.
Proof.
  intros H. apply eq_true_iff_eq. rewrite !existsb_exists.
  split; intros (x & Hin & Hx); exists x; split; auto; apply H; auto.
Qed.

(* ================================================================== *)
(** * The trigger pattern *)
(* ================================================================== *)

Module PatternFacts.
Import RegExp.

Lemma escaped_class_is_syntax (c : char) :
  existsb (N.eqb c) (js ".*+?^${}()|[]\") = is_syntax_char c.
Proof.
  unfold is_syntax_char. apply existsb_same_members.
  intros x; simpl; tauto.
Qed.

Lemma backslash_is_syntax : is_syntax_char backslash = true.
Proof. reflexivity. Qed.

(** Escaping always yields a run of pattern characters, and that run
    spells the phrase itself. *)
Lemma parse_literal_escapeRegExp (p : jstring) :
  parse_literal (escapeRegExp p) = Some (literal p).
Proof.
  induction p as [|c p IH]; [reflexivity|].
  change (escapeRegExp (c :: p))
    with ((if existsb (N.eqb c) (js ".*+?^${}()|[]\")
           then [backslash; c] else [c]) ++ escapeRegExp p).
  rewrite escaped_class_is_syntax.
  destruct (is_syntax_char c) eqn:Hc.
  - cbn [app parse_literal]. rewrite N.eqb_refl, Hc, IH. reflexivity.
  - cbn [app parse_literal].
    destruct (c =? backslash)%N eqn:Hb.
    + apply N.eqb_eq in Hb. subst c. rewrite backslash_is_syntax in Hc.
      discriminate.
    + rewrite Hc, IH. reflexivity.
Qed.

Lemma matcher_literal (p before after : jstring) k :
  matcher (literal p) before after k = true <->
  exists post, after = p ++ post /\ k (rev p ++ before) post = true.
Proof.
  revert before after; induction p as [|c p IH]; intros before after.
  - simpl. split; [intros H; exists after; auto | intros (post & -> & H); auto].
  - simpl. destruct after as [|d rest].
    + split; [discriminate | intros (post & H & _); discriminate].
    + rewrite andb_true_iff, N.eqb_eq, IH. split.
      * intros (-> & post & -> & H). exists post. split; auto.
        rewrite <- app_assoc. exact H.
      * intros (post & H & Hk). inversion H; subst. split; auto.
        exists post. split; auto. rewrite <- app_assoc in Hk. exact Hk.
Qed.

Section Boundaries.

Variables preceded followed : char -> bool.
Variable phrase : jstring.

Let pattern := bounded preceded followed phrase.

Lemma matcher_tail (before post : jstring) :
  matcher (Alt (Class followed) LineEnd) before post (fun _ _ => true) = true
  <-> follows_ok followed post.
Proof.
  unfold follows_ok. simpl. destruct post as [|c post'].
  - split; auto.
  - rewrite orb_false_r, andb_true_r. split.
    + intros H. right. exists c, post'. auto.
    + intros [H | (c' & q & H & Hc)]; [discriminate|].
      inversion H; subst; auto.
Qed.

Lemma matcher_bounded (before after : jstring) :
  matcher pattern before after (fun _ _ => true) = true <->
  (before = []
   /\ exists post, after = phrase ++ post /\ follows_ok followed post)
  \/ (exists c post, after = c :: phrase ++ post
                     /\ preceded c = true /\ follows_ok followed post).
Proof.
  unfold pattern, bounded.
  cbn [matcher]. rewrite orb_true_iff. split.
  - intros [H | H].
    + left. destruct before; [|discriminate].
      apply matcher_literal in H. destruct H as (post & -> & H).
      split; auto. exists post. split; auto.
      exact (proj1 (matcher_tail [] post) H).
    + right. destruct after as [|c rest]; [discriminate|].
      apply andb_true_iff in H. destruct H as [Hc H].
      apply matcher_literal in H. destruct H as (post & -> & H).
      exists c, post. repeat split; auto.
      exact (proj1 (matcher_tail [] post) H).
  - intros [(-> & post & -> & H) | (c & post & -> & Hc & H)].
    + left. apply matcher_literal. exists post. split; auto.
      exact (proj2 (matcher_tail [] post) H).
    + right. rewrite Hc. simpl. apply matcher_literal. exists post.
      split; auto. exact (proj2 (matcher_tail [] post) H).
Qed.

Lemma search_positions (r : regex) (before after : jstring) :
  search r before after = true <->
  exists pre rest, after = pre ++ rest
    /\ matcher r (rev pre ++ before) rest (fun _ _ => true) = true.
Proof.
  revert before; induction after as [|c after IH]; intros before.
  - simpl. rewrite orb_false_r. split.
    + intros H. exists [], []. auto.
    + intros (pre & rest & H & Hm).
      symmetry in H. apply app_eq_nil in H. destruct H; subst. exact Hm.
  - cbn [search]. rewrite orb_true_iff, IH. split.
    + intros [H | (pre & rest & -> & H)].
      * exists [], (c :: after). auto.
      * exists (c :: pre), rest. split; auto.
        simpl. rewrite <- app_assoc. exact H.
    + intros (pre & rest & H & Hm). destruct pre as [|d pre].
      * left. simpl in H. subst rest. exact Hm.
      * right. simpl in H. inversion H; subst.
        exists pre, rest. split; auto.
        simpl in Hm. rewrite <- app_assoc in Hm. exact Hm.
Qed.

(** The pattern accepts exactly the texts in which the phrase occurs
    between the two boundaries. *)
Lemma test_bounded (text : jstring) :
  test pattern text = true <->
  phrase_occurs preceded followed phrase text.
Proof.
  unfold test, phrase_occurs. rewrite search_positions. split.
  - intros (pre & rest & -> & H). rewrite app_nil_r in H.
    apply matcher_bounded in H. unfold follows_ok in H.
    destruct H as [(Hpre & post & -> & Hf) | (c & post & -> & Hc & Hf)].
    + exists pre, post. repeat split; auto.
      left. destruct pre; auto. simpl in Hpre.
      apply app_eq_nil in Hpre. destruct Hpre; discriminate.
    + exists (pre ++ [c]), post. rewrite <- app_assoc. repeat split; auto.
      right. exists pre, c. auto.
  - intros (pre & post & -> & Hpre & Hf).
    destruct Hpre as [-> | (pre' & c & -> & Hc)].
    + exists [], (phrase ++ post). split; auto.
      apply matcher_bounded. left. split; auto. exists post. auto.
    + exists pre', (c :: phrase ++ post). rewrite <- app_assoc. split; auto.
      apply matcher_bounded. right. exists c, post. auto.
Qed.

End Boundaries.

Lemma trigger_regex_bounded (triggerPhrase : jstring) :
  trigger_regex triggerPhrase
  = Ok (bounded is_white_space trigger_follow_class triggerPhrase).
Proof.
  unfold trigger_regex. rewrite parse_literal_escapeRegExp. reflexivity.
Qed.

(** A non-empty phrase never occurs in the empty text. *)
Lemma test_empty_text (triggerPhrase : jstring) :
  triggerPhrase <> [] ->
  test (bounded is_white_space trigger_follow_class triggerPhrase) [] = false.
Proof.
  intros Hne. apply not_true_is_false. intros H.
  apply test_bounded in H. destruct H as (pre & post & H & _).
  symmetry in H. apply app_eq_nil in H. destruct H as [_ H].
  apply app_eq_nil in H. destruct H. contradiction.
Qed.

End PatternFacts.

(* ================================================================== *)
(** * Trigger-phrase matching *)
(* ================================================================== *)

(** C1, as stated, fails: the pattern also accepts the phrase when a
    white-space character other than the space follows it.  On the text
    ["@claude\nplease help"] the pattern for ["@claude"] matches, while the
    phrase is followed there neither by the end of the text nor by one of
    the listed characters. *)
Lemma trigger_followers_not_only_listed :
  ~ (forall phrase text r,
       trigger_regex phrase = Ok r ->
       (RegExp.test r text = true
        <-> phrase_occurs is_white_space listed_followers phrase text)).
Proof.
  intros H.
  destruct (H (js "@claude") two_line_comment _
              (PatternFacts.trigger_regex_bounded _)) as [H1 _].
  assert (Hm : RegExp.test
                 (bounded is_white_space trigger_follow_class (js "@claude"))
                 two_line_comment = true) by reflexivity.
  apply H1 in Hm. apply PatternFacts.test_bounded in Hm.
  vm_compute in Hm. discriminate.
Qed.

(** C1 (amended): for every trigger phrase the pattern is built without
    error, and it accepts a text iff the literal phrase occurs at the very
    start of the text or right after a white-space character, and is
    followed by the end of the text or by a character of [[\s.,!?;:]],
    that is, any white-space character or one of [. , ! ? ; :].  For
    ["@claude"]: ["@claude"] and ["hi @claude,"] match; ["@claudesomething"],
    ["foo@claude"] and the empty text do not. *)
Theorem trigger_phrase_match :
  (forall phrase,
     exists r, trigger_regex phrase = Ok r
       /\ forall text,
            RegExp.test r text = true
            <-> phrase_occurs is_white_space trigger_follow_class phrase text)
  /\ (forall c,
        trigger_follow_class c = is_white_space c || listed_followers c)
  /\ (exists r, trigger_regex (js "@claude") = Ok r
        /\ RegExp.test r (js "@claude") = true
        /\ RegExp.test r (js "hi @claude,") = true
        /\ RegExp.test r (js "@claudesomething") = false
        /\ RegExp.test r (js "foo@claude") = false
        /\ RegExp.test r [] = false).
Proof.
  split; [|split].
  - intros phrase. eexists. split.
    + apply PatternFacts.trigger_regex_bounded.
    + intros text. apply PatternFacts.test_bounded.
  - intros c. unfold trigger_follow_class, listed_followers. simpl.
    destruct (is_white_space c) eqn:Hw; simpl; auto.
    destruct (c =? 32)%N eqn:H32; auto.
    apply N.eqb_eq in H32. subst c. discriminate.
  - eexists. split; [apply PatternFacts.trigger_regex_bounded|].
    repeat split; reflexivity.
Qed.

(* ================================================================== *)
(** * Delimited lists *)
(* ================================================================== *)

Lemma labelTriggers_policy (rt : Runtime) :
  parse_labelTriggers rt
  = delimited_list_policy (env_or rt "LABEL_TRIGGER" []).
Proof.
  unfold parse_labelTriggers, delimited_list_policy, split_trim_filter.
  destruct (env_or rt "LABEL_TRIGGER" []) as [|c raw]; [reflexivity|].
  cbn [non_empty negb].
  destruct (includes_char newline (c :: raw)); reflexivity.
Qed.

Lemma comma_list_policy (raw : jstring) :
  includes_char newline raw = false ->
  split_trim_filter comma raw = delimited_list_policy raw.
Proof.
  intros H. unfold delimited_list_policy, split_trim_filter.
  destruct raw as [|c raw]; [reflexivity|]. rewrite H. reflexivity.
Qed.

(** C2, as stated, fails for the tool lists: ["a\nb\nc"] as the allowed
    tools source is one element, not the three the policy yields. *)
Lemma allowedTools_ignore_newlines :
  parse_allowedTools (env_only "ALLOWED_TOOLS" a_b_c_lines)
  <> delimited_list_policy a_b_c_lines.
Proof. vm_compute. discriminate. Qed.

(** C2 (amended): the label triggers follow the two-mode policy (empty
    source: empty sequence; a newline in the source: split on newlines,
    else on commas; elements trimmed, empty ones dropped).  The allowed
    and the disallowed tools are always split on commas, trimmed and
    filtered the same way; the three parsers agree on every source without
    a newline.  The label sources ["a,b,c"], ["a\nb\nc"],
    ["  a ,  b ,  c  "] and ["a\n\nb\n\nc\n"] all give [a; b; c]. *)
Theorem delimited_lists (rt : Runtime) :
  parse_labelTriggers rt
  = delimited_list_policy (env_or rt "LABEL_TRIGGER" [])
  /\ parse_allowedTools rt
     = split_trim_filter comma (env_or rt "ALLOWED_TOOLS" [])
  /\ parse_disallowedTools rt
     = split_trim_filter comma (env_or rt "DISALLOWED_TOOLS" [])
  /\ (forall raw, includes_char newline raw = false ->
        split_trim_filter comma raw = delimited_list_policy raw)
  /\ parse_labelTriggers (env_only "LABEL_TRIGGER" (js "a,b,c"))
     = [js "a"; js "b"; js "c"]
  /\ parse_labelTriggers (env_only "LABEL_TRIGGER" a_b_c_lines)
     = [js "a"; js "b"; js "c"]
  /\ parse_labelTriggers (env_only "LABEL_TRIGGER" (js "  a ,  b ,  c  "))
     = [js "a"; js "b"; js "c"]
  /\ parse_labelTriggers (env_only "LABEL_TRIGGER" a_b_c_blank_lines)
     = [js "a"; js "b"; js "c"].
Proof.
  split; [apply labelTriggers_policy|].
  split; [reflexivity|]. split; [reflexivity|].
  split; [exact comma_list_policy|].
  repeat split; reflexivity.
Qed.

Lemma delimited_lists_witness :
  includes_char newline (js "a,b,c") = false
  /\ split_trim_filter comma (js "a,b,c") = delimited_list_policy (js "a,b,c").
Proof.
  split; [reflexivity|].
  apply (proj1 (proj2 (proj2 (proj2 (delimited_lists bare_runtime))))).
  reflexivity.
Defined.

(* ================================================================== *)
(** * Normalisation: [parseGitHubContext] *)
(* ================================================================== *)

Section Normalisation.

Variable rt : Runtime.
Variable ev : Github.Context.

Let name := Github.eventName ev.
Let p := Github.payload ev.

Lemma parse_issues i :
  name = js "issues" -> issue p = Some i ->
  parseGitHubContext rt ev = Ok (commonFields rt ev (issue_number i) false).
Proof.
  unfold parseGitHubContext. fold name p. intros -> ->. reflexivity.
Qed.

Lemma parse_issue_comment i :
  name = js "issue_comment" -> issue p = Some i ->
  parseGitHubContext rt ev
  = Ok (commonFields rt ev (issue_number i)
          (truthy (issue_pull_request i))).
Proof.
  unfold parseGitHubContext. fold name p. intros -> ->. reflexivity.
Qed.

Lemma parse_pull_request pr :
  name = js "pull_request" \/ name = js "pull_request_review"
  \/ name = js "pull_request_review_comment" ->
  pull_request p = Some pr ->
  parseGitHubContext rt ev = Ok (commonFields rt ev (pr_number pr) true).
Proof.
  unfold parseGitHubContext. fold name p.
  intros [-> | [-> | ->]] ->; reflexivity.
Qed.

Lemma parse_repository_dispatch :
  name = js "repository_dispatch" ->
  let prNumber := opt_field cp_pr_number (client_payload p) in
  parseGitHubContext rt ev
  = Ok (commonFields rt ev
          (if truthy prNumber then parseInt10 (toString prNumber) else Int 0)
          (match opt_field cp_is_pr (client_payload p) with
           | JBool true => true
           | _ => false
           end || truthy prNumber)).
Proof.
  unfold parseGitHubContext. fold name p. intros ->. reflexivity.
Qed.

Lemma parse_workflow_dispatch :
  name = js "workflow_dispatch" ->
  let prNumber := opt_field in_pr_number (inputs p) in
  parseGitHubContext rt ev
  = Ok (commonFields rt ev
          (if truthy prNumber then parseInt10 (toString prNumber) else Int 0)
          (strict_eq_string (opt_field in_is_pr (inputs p)) (js "true")
           || truthy prNumber)).
Proof.
  unfold parseGitHubContext. fold name p. intros ->. reflexivity.
Qed.

Lemma parse_unsupported :
  ~ In name supported_event_names ->
  parseGitHubContext rt ev
  = Throw (Error (js "Unsupported event type: " ++ name)).
Proof.
  intros Hn. unfold parseGitHubContext. fold name.
  assert (Hf : forall x, In x supported_event_names -> str_eqb name x = false).
  { intros x Hx. apply str_eqb_neq. intros ->. contradiction. }
  rewrite !Hf by (simpl; tauto). reflexivity.
Qed.

End Normalisation.

Lemma digit_not_white_space (c : char) :
  is_digit c = true ->
  is_white_space c = false /\ (c =? 45)%N = false /\ (c =? 43)%N = false.
Proof.
  unfold is_digit, is_white_space. rewrite andb_true_iff, !N.leb_le.
  intros [H1 H2].
  repeat match goal with
  | |- context [(c =? ?k)%N] =>
      destruct (N.eqb_spec c k); [exfalso; lia|]
  | |- context [(?k <=? c)%N] =>
      destruct (N.leb_spec k c); [exfalso; lia|]
  end.
  auto.
Qed.

Lemma parse_digits_natural (s : jstring) (a : Z) :
  (0 <= a)%Z -> exists n, parse_digits (Some a) s = Some n /\ (0 <= n)%Z.
Proof.
  revert a; induction s as [|c s IH]; intros a Ha; cbn [parse_digits].
  - exists a; auto.
  - destruct (is_digit c).
    + apply IH. pose proof (N2Z.is_nonneg (c - 48)). lia.
    + exists a; auto.
Qed.

Lemma nearest_double_safe (n : Z) :
  (n < 2 ^ 53)%Z -> nearest_double n = Some n.
Proof.
  intros H. unfold nearest_double. apply Z.ltb_lt in H. rewrite H.
  reflexivity.
Qed.

Lemma nearest_double_nonneg (n x : Z) :
  (0 <= n)%Z -> nearest_double n = Some x -> (0 <= x)%Z.
Proof.
  intros Hn. unfold nearest_double.
  destruct (n <? 2 ^ 53)%Z; [intros H; inversion H; subst; exact Hn|].
  cbv zeta.
  match goal with
  | |- context [(2 ^ 1024 <=? ?x)%Z] => destruct (2 ^ 1024 <=? x)%Z
  end; [discriminate|].
  intros H. inversion H. apply Z.shiftl_nonneg.
  assert (Hq : (0 <= Z.shiftr n (Z.log2 n - 52))%Z)
    by (apply Z.shiftr_nonneg; exact Hn).
  match goal with
  | |- context [if ?b then _ else _] => destruct b
  end; lia.
Qed.

(** The Number value of a natural number is a natural number or
    [+Infinity]. *)
Lemma to_number_natural (n : Z) :
  (0 <= n)%Z ->
  (exists m, to_number n = Int m /\ (0 <= m)%Z)
  \/ to_number n = Infinity false.
Proof.
  intros Hn. unfold to_number. rewrite (Z.abs_eq n Hn).
  destruct (nearest_double n) as [x|] eqn:Hx.
  - left. exists (Z.sgn n * x)%Z. split; [reflexivity|].
    apply Z.mul_nonneg_nonneg;
      [apply Z.sgn_nonneg; exact Hn
      | apply (nearest_double_nonneg n x Hn Hx)].
  - right. f_equal. apply Z.ltb_ge. exact Hn.
Qed.

(** The Number value of a safe integer is that integer. *)
Lemma to_number_safe (z : Z) :
  (Z.abs z < 2 ^ 53)%Z -> to_number z = Int z.
Proof.
  intros H. unfold to_number. rewrite (nearest_double_safe _ H).
  destruct z; reflexivity.
Qed.

(** [parseInt] of a string that begins with a decimal digit is a
    natural number or [+Infinity]. *)
Lemma parseInt10_natural (s : jstring) :
  starts_with_digit s = true ->
  (exists n, parseInt10 s = Int n /\ (0 <= n)%Z)
  \/ parseInt10 s = Infinity false.
Proof.
  destruct s as [|c s]; [discriminate|]. simpl. intros Hd.
  destruct (digit_not_white_space c Hd) as (Hw & Hm & Hp).
  unfold parseInt10. cbn [trimStart]. rewrite Hw, Hm, Hp.
  cbn [parse_digits]. rewrite Hd.
  destruct (parse_digits_natural s (10 * 0 + Z.of_N (c - 48)))
    as (n & -> & Hn);
    [pose proof (N2Z.is_nonneg (c - 48)); lia|].
  apply to_number_natural. lia.
Qed.

Lemma parse_digits_step (a : Z) (c : char) (s : jstring) :
  is_digit c = true ->
  parse_digits (Some a) (c :: s)
  = parse_digits (Some (10 * a + Z.of_N (c - 48))%Z) s.
Proof. intros H. cbn [parse_digits]. rewrite H. reflexivity. Qed.

Ltac digit_value :=
  match goal with
  | |- context [Z.of_N ?x] =>
      let v := eval vm_compute in (Z.of_N x) in change (Z.of_N x) with v
  end.

Lemma parse_digits_acc (d : Decimal.uint) (acc : positive) :
  parse_digits (Some (Zpos acc)) (uint_chars d)
  = Some (Zpos (Pos.of_uint_acc d acc)).
Proof.
  revert acc; induction d; intros acc;
    cbn [uint_chars Pos.of_uint_acc]; [reflexivity | ..];
    rewrite parse_digits_step by reflexivity; digit_value;
    rewrite <- IHd; f_equal; f_equal; lia.
Qed.

Lemma parse_digits_uint (d : Decimal.uint) :
  parse_digits (Some 0%Z) (uint_chars d) = Some (Z.of_N (Pos.of_uint d)).
Proof.
  induction d; cbn [uint_chars Pos.of_uint]; [reflexivity | ..];
    rewrite parse_digits_step by reflexivity; digit_value;
    first [ exact IHd | apply parse_digits_acc ].
Qed.

Lemma uint_chars_digit (d : Decimal.uint) :
  d <> Decimal.Nil -> starts_with_digit (uint_chars d) = true.
Proof. destruct d; intros H; [contradiction | reflexivity ..]. Qed.

Lemma parse_digits_start (s : jstring) :
  starts_with_digit s = true ->
  parse_digits None s = parse_digits (Some 0%Z) s.
Proof.
  destruct s as [|c s]; [discriminate|]. cbn [starts_with_digit]. intros H.
  cbn [parse_digits]. rewrite H. reflexivity.
Qed.

Lemma parseInt10_digits (s : jstring) :
  starts_with_digit s = true ->
  parseInt10 s = match parse_digits (Some 0%Z) s with
                 | Some n => to_number n
                 | None => NaN
                 end.
Proof.
  intros H. pose proof (parse_digits_start s H) as Hs.
  destruct s as [|c s]; [discriminate|]. cbn [starts_with_digit] in H.
  destruct (digit_not_white_space c H) as (Hw & Hm & Hp).
  unfold parseInt10. cbn [trimStart]. rewrite Hw, Hm, Hp, Hs.
  destruct (parse_digits (Some 0%Z) (c :: s)) as [n|]; [|reflexivity].
  rewrite Z.mul_1_l. reflexivity.
Qed.

Lemma print_magnitude_safe (q : positive) :
  (Zpos q < 2 ^ 53)%Z ->
  print_magnitude (Zpos q) = uint_chars (Pos.to_uint q).
Proof.
  intros H. unfold print_magnitude. rewrite (nearest_double_safe _ H).
  apply Z.ltb_lt in H. rewrite H. reflexivity.
Qed.

(** Printing a safe integer and reading it back gives the integer. *)
Lemma parseInt10_number_toString (z : Z) :
  (Z.abs z < 2 ^ 53)%Z ->
  parseInt10 (number_toString (Int z)) = Int z.
Proof.
  destruct z as [|q|q]; intros Hz; [reflexivity| |].
  - cbn [number_toString]. rewrite (print_magnitude_safe q Hz).
    rewrite parseInt10_digits
      by (apply uint_chars_digit, Unsigned.to_uint_nonnil).
    rewrite parse_digits_uint, Unsigned.of_to.
    apply (to_number_safe (Zpos q) Hz).
  - cbn [number_toString]. rewrite (print_magnitude_safe q Hz).
    unfold parseInt10.
    change (trimStart (45%N :: uint_chars (Pos.to_uint q)))
      with (45%N :: uint_chars (Pos.to_uint q)).
    cbv iota beta. change (45 =? 45)%N with true. cbv iota beta.
    rewrite parse_digits_start
      by (apply uint_chars_digit, Unsigned.to_uint_nonnil).
    rewrite parse_digits_uint, Unsigned.of_to.
    apply (to_number_safe (Zneg q) Hz).
Qed.

(** The printing of integers beyond the safe range, on known values:
    2^53 + 1 is not a double and prints as 2^53; 2^64 prints with the 17
    digits that identify it; from 10^21 on the exponent form is used;
    beyond the largest double the text is [Infinity].  Read back by
    [parseInt], ["1e+21"] gives 1 and a run of 400 nines gives
    [+Infinity]. *)
Lemma number_toString_beyond_safe :
  number_toString (Int (2 ^ 53 + 1)) = js "9007199254740992"
  /\ number_toString (Int (2 ^ 64)) = js "18446744073709552000"
  /\ number_toString (Int (10 ^ 21)) = js "1e+21"
  /\ number_toString (Int (2 ^ 70)) = js "1.1805916207174113e+21"
  /\ number_toString (Int (- (2 ^ 1024 - 2 ^ 971)))
     = js "-1.7976931348623157e+308"
  /\ number_toString (Int (2 ^ 1024)) = js "Infinity"
  /\ parseInt10 (number_toString (Int (10 ^ 21))) = Int 1
  /\ parseInt10 (js "9007199254740993") = Int 9007199254740992
  /\ parseInt10 (repeat 57%N 400) = Infinity false.
Proof. repeat apply conj; vm_compute; reflexivity. Qed.

(** What [parseInt(pr_number.toString(), 10)] makes of a [pr_number] that
    is not an integer or a string of digits: 12.5 gives 12, the array
    [[12]] (printed ["12"]) gives 12, a plain object gives [NaN], ["-3"]
    gives -3. *)
Lemma parseInt10_of_other_values :
  parseInt10 (toString (JNumber (Other (js "12.5")))) = Int 12
  /\ parseInt10 (toString (JObject (js "12"))) = Int 12
  /\ parseInt10 (toString (JObject (js "[object Object]"))) = NaN
  /\ parseInt10 (toString (JString (js "-3"))) = Int (-3).
Proof. repeat apply conj; vm_compute; reflexivity. Qed.

(** Two different event names are never equal. *)
Ltac name_clash :=
  repeat match goal with
  | H : _ \/ _ |- _ => destruct H
  end;
  match goal with
  | H : js ?a = js ?b |- _ => vm_compute in H; discriminate H
  | H : None = Some _ |- _ => discriminate H
  | H : Some _ = None |- _ => discriminate H
  end.

Lemma well_shaped_issue (p : Payload) (name : jstring) :
  name = js "issues" \/ name = js "issue_comment" ->
  well_shaped name p = true -> exists i, issue p = Some i.
Proof.
  intros [-> | ->]; unfold well_shaped; cbn;
    destruct (issue p) as [i|]; try discriminate; exists i; reflexivity.
Qed.

Lemma well_shaped_pull_request (p : Payload) (name : jstring) :
  name = js "pull_request" \/ name = js "pull_request_review"
  \/ name = js "pull_request_review_comment" ->
  well_shaped name p = true -> exists pr, pull_request p = Some pr.
Proof.
  intros [-> | [-> | ->]]; unfold well_shaped; cbn;
    destruct (pull_request p) as [pr|]; try discriminate; exists pr;
    reflexivity.
Qed.

Lemma dispatch_entity_number (v : value) :
  let n := if truthy v then parseInt10 (toString v) else Int 0 in
  (truthy v = false -> n = Int 0)
  /\ (truthy v = true -> n = parseInt10 (toString v))
  /\ (truthy v = true -> starts_with_digit (toString v) = true ->
      (exists z, n = Int z /\ (0 <= z)%Z) \/ n = Infinity false)
  /\ (forall z, v = JNumber (Int z) -> (Z.abs z < 2 ^ 53)%Z -> n = Int z).
Proof.
  cbv zeta. split; [|split; [|split]].
  - intros ->. reflexivity.
  - intros ->. reflexivity.
  - intros -> Hd. apply parseInt10_natural. exact Hd.
  - intros z -> Hsafe. cbn [truthy toString].
    destruct (Z.eqb_spec z 0) as [-> | Hz]; cbn [negb];
      [reflexivity | apply parseInt10_number_toString; exact Hsafe].
Qed.






(* ================================================================== *)
(** * The trigger evaluator: [checkContainsTrigger] *)
(* ================================================================== *)

Lemma truthy_or_else (a b : value) :
  truthy (or_else a b) = truthy a || truthy b.
Proof. unfold or_else. destruct (truthy a) eqn:H; simpl; auto. Qed.

Lemma truthy_env_value (rt : Runtime) (name : string) :
  truthy (env_value rt name)
  = match env rt name with Some s => non_empty s | None => false end.
Proof. unfold env_value. destruct (env rt name); reflexivity. Qed.

Lemma other_event_name (context : ParsedGitHubContext) (a b : jstring) :
  str_eqb (eventName context) a = true -> str_eqb a b = false ->
  str_eqb (eventName context) b = false.
Proof.
  intros Ha Hab. apply str_eqb_spec in Ha. rewrite Ha. exact Hab.
Qed.

Lemma other_action (context : ParsedGitHubContext) (a b : jstring) :
  action_is context a = true -> str_eqb a b = false ->
  action_is context b = false.
Proof.
  unfold action_is. destruct (eventAction context) as [x|]; [|discriminate].
  intros Ha Hab. apply str_eqb_spec in Ha. rewrite Ha. exact Hab.
Qed.

(** C5: with a non-empty direct prompt the evaluator returns true,
    whatever the event kind, action, payload and the other inputs are. *)
Theorem direct_prompt_always_triggers (rt : Runtime)
    (context : ParsedGitHubContext) :
  directPrompt (ctx_inputs context) <> [] ->
  checkContainsTrigger rt context
  = Ok {| returned := true;
          logged := js "Direct prompt provided, triggering action" |}.
Proof.
  intros H. apply non_empty_spec in H.
  unfold checkContainsTrigger. rewrite H. reflexivity.
Qed.

Lemma direct_prompt_always_triggers_witness :
  decision
    (checkContainsTrigger bare_runtime
       (sample_context (js "issues")
          (issue_payload (js "opened") (JString (js "Fix bug"))
             (JString (js "nothing to see")) None)
          (sample_inputs (js "@claude") [] (js "review this") [])))
  = Some true.
Proof.
  rewrite direct_prompt_always_triggers; [reflexivity|].
  simpl. discriminate.
Defined.



(** C7: for a [workflow_dispatch] event with an empty direct prompt the
    evaluator returns true iff a PR number is present in the dispatch
    inputs, the action input [pr_number] or the environment variable
    [PR_NUMBER], or else a prompt is present in the dispatch inputs, the
    action input [prompt] or the environment variable [PROMPT]; with
    neither anywhere it returns false. *)
Theorem workflow_dispatch_trigger (rt : Runtime)
    (context : ParsedGitHubContext) :
  let ins := inputs (payload context) in
  let pr_present :=
    chain_present rt (opt_field in_pr_number ins) "pr_number" "PR_NUMBER" in
  let prompt_present :=
    chain_present rt (opt_field in_prompt ins) "prompt" "PROMPT" in
  isWorkflowDispatchEvent context = true ->
  directPrompt (ctx_inputs context) = [] ->
  exists o,
    checkContainsTrigger rt context = Ok o
    /\ returned o = pr_present || prompt_present
    /\ (pr_present = false -> prompt_present = false -> returned o = false).
Proof.
  intros ins pr_present prompt_present Hev Hd.
  unfold checkContainsTrigger. rewrite Hd. cbn [non_empty]. rewrite Hev.
  unfold workflow_dispatch_rule. fold ins.
  rewrite !truthy_or_else, !truthy_env_value.
  change (truthy (JString (getInput rt "pr_number")))
    with (non_empty (getInput rt "pr_number")).
  change (truthy (JString (getInput rt "prompt")))
    with (non_empty (getInput rt "prompt")).
  fold (chain_present rt (opt_field in_pr_number ins) "pr_number" "PR_NUMBER").
  fold (chain_present rt (opt_field in_prompt ins) "prompt" "PROMPT").
  fold pr_present prompt_present.
  destruct pr_present; [|destruct prompt_present];
    eexists; (split; [reflexivity|]); cbn [returned]; auto.
Qed.

Lemma workflow_dispatch_trigger_witness :
  decision
    (checkContainsTrigger bare_runtime
       (sample_context (js "workflow_dispatch") empty_payload
          (sample_inputs (js "@claude") [] [] [])))
  = Some false.
Proof.
  destruct (workflow_dispatch_trigger bare_runtime
              (sample_context (js "workflow_dispatch") empty_payload
                 (sample_inputs (js "@claude") [] [] [])))
    as (o & Ho & _ & Hf); [reflexivity | reflexivity |].
  rewrite Ho. simpl. rewrite Hf; reflexivity.
Defined.

(** C10: the outcome does not depend on the metadata of the context: two
    contexts with the same event name, event action, payload and inputs
    (run id, repository, actor, entity number and PR flag may differ) get
    the same decision, with the same logged line. *)
Theorem decision_ignores_metadata (rt : Runtime)
    (c1 c2 : ParsedGitHubContext) :
  eventName c1 = eventName c2 ->
  eventAction c1 = eventAction c2 ->
  payload c1 = payload c2 ->
  ctx_inputs c1 = ctx_inputs c2 ->
  checkContainsTrigger rt c1 = checkContainsTrigger rt c2.
Proof.
  destruct c1, c2. cbn [eventName eventAction payload ctx_inputs].
  intros -> -> -> ->. reflexivity.
Qed.

Lemma decision_ignores_metadata_witness :
  checkContainsTrigger bare_runtime
    (sample_context (js "issue_comment")
       (comment_payload (JString (js "hi @claude,")))
       (sample_inputs (js "@claude") [] [] []))
  = checkContainsTrigger bare_runtime
      {| runId := None;
         eventName := js "issue_comment";
         eventAction := Some (js "created");
         repository := {| owner := js "other"; repo := js "place";
                          full_name := js "other/place" |};
         actor := js "bob";
         payload := comment_payload (JString (js "hi @claude,"));
         entityNumber := NaN;
         isPR := true;
         ctx_inputs := sample_inputs (js "@claude") [] [] [] |}.
Proof.
  apply decision_ignores_metadata; reflexivity.
Defined.

Ltac unfold_rules :=
  unfold checkContainsTrigger, assignee_rule, label_rule, issue_opened_rule,
    pull_request_rule, review_rule, comment_rule.

Ltac unfold_events :=
  unfold isIssuesEvent, isIssueCommentEvent, isPullRequestEvent,
    isPullRequestReviewEvent, isPullRequestReviewCommentEvent,
    isWorkflowDispatchEvent, isRepositoryDispatchEvent in *.

(** Decide every test on the event name from the one that is known. *)
Ltac settle_event Hev :=
  unfold_events;
  repeat match goal with
  | |- context [str_eqb (eventName ?c) ?x] =>
      first [ rewrite Hev
            | rewrite (other_event_name c _ x Hev) by reflexivity ]
  end.

(** Decide every test on the action from the one that is known. *)
Ltac settle_action Hact :=
  repeat match goal with
  | |- context [action_is ?c ?x] =>
      first [ rewrite Hact
            | rewrite (other_action c _ x Hact) by reflexivity ]
  end.

Lemma assignee_condition (t : jstring) (a : option User) :
  non_empty t
  && strict_eq_string (or_else (opt_field user_login a) (JString [])) t
  = true
  <-> t <> [] /\ exists u, a = Some u /\ user_login u = JString t.
Proof.
  rewrite andb_true_iff, non_empty_spec. split.
  - intros [Ht H]. split; [exact Ht|].
    destruct a as [u|]; cbn [opt_field] in H.
    + exists u. split; [reflexivity|].
      unfold or_else in H. destruct (truthy (user_login u)).
      * destruct (user_login u); try discriminate H.
        cbn [strict_eq_string] in H. apply str_eqb_spec in H. congruence.
      * cbn [strict_eq_string] in H. apply str_eqb_spec in H. congruence.
    + cbn in H. destruct t; [congruence | discriminate].
  - intros [Ht (u & -> & Hu)]. split; [exact Ht|].
    cbn [opt_field]. rewrite Hu. unfold or_else.
    destruct t as [|c t]; [contradiction|]. cbn [truthy strict_eq_string].
    apply str_eqb_refl.
Qed.

(** C8: for an [issues] event with action ["assigned"] and an empty direct
    prompt, the evaluator returns true iff the configured assignee
    trigger, one leading ["@"] removed if there is one, is non-empty and
    is exactly the login of the assigned user.  Configured ["@claude-bot"]
    matches the login ["claude-bot"] and neither ["Claude-Bot"] nor
    ["claude-bot2"]. *)
Theorem assignee_trigger :
  (forall (rt : Runtime) (context : ParsedGitHubContext) (i : Issue),
     let triggerUser := strip_at (assigneeTrigger (ctx_inputs context)) in
     isIssuesEvent context = true ->
     action_is context (js "assigned") = true ->
     directPrompt (ctx_inputs context) = [] ->
     issue (payload context) = Some i ->
     exists o,
       checkContainsTrigger rt context = Ok o
       /\ (returned o = true
           <-> triggerUser <> []
               /\ exists u, issue_assignee i = Some u
                            /\ user_login u = JString triggerUser))
  /\ strip_at (js "@claude-bot") = js "claude-bot"
  /\ strip_at (js "claude-bot") = js "claude-bot"
  /\ strip_at (js "@@claude-bot") = js "@claude-bot"
  /\ decision (checkContainsTrigger bare_runtime
                 (assigned_context (js "@claude-bot") (js "claude-bot")))
     = Some true
  /\ decision (checkContainsTrigger bare_runtime
                 (assigned_context (js "@claude-bot") (js "Claude-Bot")))
     = Some false
  /\ decision (checkContainsTrigger bare_runtime
                 (assigned_context (js "@claude-bot") (js "claude-bot2")))
     = Some false.
Proof.
  split; [|repeat split; reflexivity].
  intros rt context i triggerUser Hev Hact Hd Hi.
  pose proof (assignee_condition triggerUser (issue_assignee i)) as Hc.
  unfold_rules. rewrite Hd, Hi. cbn [non_empty].
  settle_event Hev. settle_action Hact.
  cbn [andb orb member bind]. fold triggerUser.
  destruct (non_empty triggerUser
            && strict_eq_string
                 (or_else (opt_field user_login (issue_assignee i))
                    (JString [])) triggerUser).
  - eexists. split; [reflexivity|]. cbn [returned]. tauto.
  - eexists. split; [reflexivity|]. cbn [returned].
    split; [discriminate|]. intros H. apply Hc in H. discriminate.
Qed.

Lemma assignee_trigger_witness :
  exists o,
    checkContainsTrigger bare_runtime
      (assigned_context (js "@claude-bot") (js "claude-bot")) = Ok o
    /\ returned o = true.
Proof.
  destruct (proj1 assignee_trigger bare_runtime
              (assigned_context (js "@claude-bot") (js "claude-bot"))
              {| issue_number := Int 1; issue_title := JString (js "Fix bug");
                 issue_body := JNull;
                 issue_assignee :=
                   Some {| user_login := JString (js "claude-bot") |};
                 issue_pull_request := JUndefined |})
    as (o & Ho & Hr);
    [reflexivity | reflexivity | reflexivity | reflexivity |].
  exists o. split; [exact Ho|].
  apply Hr. split; [vm_compute; discriminate|].
  eexists. split; reflexivity.
Defined.

(* ------------------------------------------------------------------ *)
(** ** Missing fields *)

Lemma or_else_blank (v : value) :
  or_else (blank v) (JString []) = or_else v (JString []).
Proof. destruct v; reflexivity. Qed.

Lemma or_else_missing (v : value) :
  is_missing v = true -> or_else v (JString []) = JString [].
Proof. destruct v; try discriminate; reflexivity. Qed.

Lemma and_then_ok (r : rule) (rest : result Outcome) :
  (exists x, r = Ok x) -> (exists o, rest = Ok o) ->
  exists o, and_then r rest = Ok o.
Proof.
  intros (x & ->) (o & ->). destruct x as [out|]; cbn; eauto.
Qed.

Section RuleFacts.

Variable context : ParsedGitHubContext.

Let p := payload context.
Let cfg := ctx_inputs context.

Lemma shape_issue :
  well_shaped (eventName context) p = true ->
  isIssuesEvent context = true -> exists i, issue p = Some i.
Proof.
  intros Hw Hev. apply str_eqb_spec in Hev.
  apply (well_shaped_issue p (eventName context)); auto.
Qed.

Lemma shape_pull_request :
  well_shaped (eventName context) p = true ->
  isPullRequestEvent context = true -> exists pr, pull_request p = Some pr.
Proof.
  intros Hw Hev. apply str_eqb_spec in Hev.
  apply (well_shaped_pull_request p (eventName context)); auto.
Qed.

Lemma shape_review :
  well_shaped (eventName context) p = true ->
  isPullRequestReviewEvent context = true -> exists r, review p = Some r.
Proof.
  intros Hw Hev. apply str_eqb_spec in Hev. rewrite Hev in Hw.
  unfold well_shaped in Hw. cbn in Hw.
  destruct (review p) as [r|]; [exists r; reflexivity|].
  rewrite andb_false_r in Hw. discriminate.
Qed.

Lemma shape_comment :
  well_shaped (eventName context) p = true ->
  isIssueCommentEvent context || isPullRequestReviewCommentEvent context
  = true ->
  exists c, comment p = Some c.
Proof.
  intros Hw Hev. apply orb_true_iff in Hev.
  destruct Hev as [Hev | Hev]; apply str_eqb_spec in Hev; rewrite Hev in Hw;
    unfold well_shaped in Hw; cbn in Hw;
    (destruct (comment p) as [c|]; [exists c; reflexivity|]);
    rewrite andb_false_r in Hw; discriminate.
Qed.

Hypothesis shaped : well_shaped (eventName context) p = true.

Lemma assignee_rule_ok : exists x, assignee_rule context = Ok x.
Proof.
  unfold assignee_rule. fold p cfg.
  destruct (isIssuesEvent context) eqn:Hev; cbn [andb];
    [|eexists; reflexivity].
  destruct (shape_issue shaped Hev) as (i & ->).
  destruct (action_is context (js "assigned")); [|eexists; reflexivity].
  cbn [member bind].
  match goal with |- context [if ?c then _ else _] => destruct c end;
    eexists; reflexivity.
Qed.

Lemma label_rule_ok : exists x, label_rule context = Ok x.
Proof.
  unfold label_rule.
  repeat match goal with
  | |- context [if ?c then _ else _] => destruct c
  end; eexists; reflexivity.
Qed.

Lemma issue_opened_rule_ok : exists x, issue_opened_rule context = Ok x.
Proof.
  unfold issue_opened_rule. fold p cfg.
  destruct (isIssuesEvent context) eqn:Hev; cbn [andb];
    [|eexists; reflexivity].
  destruct (shape_issue shaped Hev) as (i & ->).
  destruct (action_is context (js "opened")); [|eexists; reflexivity].
  rewrite PatternFacts.trigger_regex_bounded. cbn [member bind].
  repeat match goal with
  | |- context [if ?c then _ else _] => destruct c
  end; eexists; reflexivity.
Qed.

Lemma pull_request_rule_ok : exists x, pull_request_rule context = Ok x.
Proof.
  unfold pull_request_rule. fold p cfg.
  destruct (isPullRequestEvent context) eqn:Hev; [|eexists; reflexivity].
  destruct (shape_pull_request shaped Hev) as (pr & ->).
  rewrite PatternFacts.trigger_regex_bounded. cbn [member bind].
  repeat match goal with
  | |- context [if ?c then _ else _] => destruct c
  end; eexists; reflexivity.
Qed.

Lemma review_rule_ok : exists x, review_rule context = Ok x.
Proof.
  unfold review_rule. fold p cfg.
  destruct (isPullRequestReviewEvent context) eqn:Hev; cbn [andb];
    [|eexists; reflexivity].
  destruct (shape_review shaped Hev) as (r & ->).
  rewrite PatternFacts.trigger_regex_bounded.
  destruct (action_is context (js "submitted")
            || action_is context (js "edited"));
    [|eexists; reflexivity].
  cbn [member bind].
  match goal with |- context [if ?c then _ else _] => destruct c end;
    eexists; reflexivity.
Qed.

Lemma comment_rule_ok : exists x, comment_rule context = Ok x.
Proof.
  unfold comment_rule. fold p cfg.
  destruct (isIssueCommentEvent context
            || isPullRequestReviewCommentEvent context) eqn:Hev;
    [|eexists; reflexivity].
  destruct (shape_comment shaped Hev) as (c & ->).
  rewrite PatternFacts.trigger_regex_bounded. cbn [member bind].
  match goal with |- context [if ?c then _ else _] => destruct c end;
    eexists; reflexivity.
Qed.

End RuleFacts.

Section Blanking.

Variable context : ParsedGitHubContext.

Let blanked := with_payload context (blank_payload (payload context)).

Lemma assignee_rule_blank : assignee_rule blanked = assignee_rule context.
Proof.
  unfold assignee_rule, isIssuesEvent, action_is, blanked.
  cbn [with_payload blank_payload eventName eventAction payload ctx_inputs
       issue].
  destruct (issue (payload context)) as [i|]; [|reflexivity].
  cbn [option_map member bind issue_assignee opt_field user_login].
  rewrite or_else_blank. reflexivity.
Qed.

Lemma label_rule_blank : label_rule blanked = label_rule context.
Proof.
  unfold label_rule, isIssuesEvent, action_is, blanked.
  cbn [with_payload blank_payload eventName eventAction payload ctx_inputs
       label opt_field label_name].
  rewrite or_else_blank. reflexivity.
Qed.

Lemma issue_opened_rule_blank :
  issue_opened_rule blanked = issue_opened_rule context.
Proof.
  unfold issue_opened_rule, isIssuesEvent, action_is, blanked.
  cbn [with_payload blank_payload eventName eventAction payload ctx_inputs
       issue].
  destruct (issue (payload context)) as [i|]; [|reflexivity].
  cbn [option_map member bind issue_body issue_title].
  rewrite !or_else_blank. reflexivity.
Qed.

Lemma pull_request_rule_blank :
  pull_request_rule blanked = pull_request_rule context.
Proof.
  unfold pull_request_rule, isPullRequestEvent, blanked.
  cbn [with_payload blank_payload eventName payload ctx_inputs pull_request].
  destruct (pull_request (payload context)) as [pr|]; [|reflexivity].
  cbn [option_map member bind pr_body pr_title].
  rewrite !or_else_blank. reflexivity.
Qed.

Lemma review_rule_blank : review_rule blanked = review_rule context.
Proof.
  unfold review_rule, isPullRequestReviewEvent, action_is, blanked.
  cbn [with_payload blank_payload eventName eventAction payload ctx_inputs
       review].
  destruct (review (payload context)) as [r|]; [|reflexivity].
  cbn [option_map member bind review_body].
  rewrite or_else_blank. reflexivity.
Qed.

(** Putting the empty string in place of the missing guarded fields
    changes nothing. *)
Lemma checkContainsTrigger_blank (rt : Runtime) :
  checkContainsTrigger rt blanked = checkContainsTrigger rt context.
Proof.
  unfold checkContainsTrigger.
  rewrite assignee_rule_blank, label_rule_blank, issue_opened_rule_blank,
    pull_request_rule_blank, review_rule_blank.
  reflexivity.
Qed.

Hypothesis phrase_given : triggerPhrase (ctx_inputs context) <> [].

Lemma issue_opened_rule_missing i :
  issue (payload context) = Some i ->
  is_missing (issue_body i) = true -> is_missing (issue_title i) = true ->
  issue_opened_rule context = falls_through.
Proof.
  intros Hi Hb Ht. unfold issue_opened_rule.
  destruct (isIssuesEvent context && action_is context (js "opened"));
    [|reflexivity].
  rewrite Hi, PatternFacts.trigger_regex_bounded. cbn [member bind].
  rewrite (or_else_missing _ Hb), (or_else_missing _ Ht).
  cbn [toString].
  rewrite (PatternFacts.test_empty_text _ phrase_given). reflexivity.
Qed.

Lemma pull_request_rule_missing pr :
  pull_request (payload context) = Some pr ->
  is_missing (pr_body pr) = true -> is_missing (pr_title pr) = true ->
  pull_request_rule context = falls_through.
Proof.
  intros Hpr Hb Ht. unfold pull_request_rule.
  destruct (isPullRequestEvent context); [|reflexivity].
  rewrite Hpr, PatternFacts.trigger_regex_bounded. cbn [member bind].
  rewrite (or_else_missing _ Hb), (or_else_missing _ Ht).
  cbn [toString].
  rewrite (PatternFacts.test_empty_text _ phrase_given). reflexivity.
Qed.

Lemma review_rule_missing r :
  review (payload context) = Some r ->
  is_missing (review_body r) = true ->
  review_rule context = falls_through.
Proof.
  intros Hr Hb. unfold review_rule.
  destruct (isPullRequestReviewEvent context
            && (action_is context (js "submitted")
                || action_is context (js "edited")));
    [|reflexivity].
  rewrite Hr, PatternFacts.trigger_regex_bounded. cbn [member bind].
  rewrite (or_else_missing _ Hb). cbn [toString].
  rewrite (PatternFacts.test_empty_text _ phrase_given). reflexivity.
Qed.

End Blanking.

Lemma label_rule_missing (context : ParsedGitHubContext) :
  is_missing (opt_field label_name (label (payload context))) = true ->
  label_rule context = falls_through.
Proof.
  intros Hl. unfold label_rule. rewrite (or_else_missing _ Hl).
  cbn [truthy]. rewrite andb_false_r.
  destruct (isIssuesEvent context && action_is context (js "labeled"));
    reflexivity.
Qed.

Lemma assignee_rule_missing (context : ParsedGitHubContext) i :
  issue (payload context) = Some i ->
  is_missing (opt_field user_login (issue_assignee i)) = true ->
  assignee_rule context = falls_through.
Proof.
  intros Hi Hl. unfold assignee_rule. rewrite Hi. cbn [member bind].
  rewrite (or_else_missing _ Hl).
  destruct (isIssuesEvent context && action_is context (js "assigned"));
    [|reflexivity].
  destruct (strip_at (assigneeTrigger (ctx_inputs context))); reflexivity.
Qed.




(* ================================================================== *)
(** * Further properties of the trigger evaluator *)
(* ================================================================== *)

Lemma array_includes_spec (xs : list jstring) (x : jstring) :
  array_includes xs x = true <-> In x xs.
Proof.
  unfold array_includes. rewrite existsb_exists. split.
  - intros (y & Hy & Heq). apply str_eqb_spec in Heq. subst. exact Hy.
  - intros H. exists x. split; [exact H | apply str_eqb_refl].
Qed.

Lemma test_triggers (phrase text : jstring) :
  RegExp.test (bounded is_white_space trigger_follow_class phrase) text = true
  <-> triggers_in phrase text.
Proof. apply PatternFacts.test_bounded. Qed.

Lemma label_condition (labels : list jstring) (l : option Label) :
  let labelName := or_else (opt_field label_name l) (JString []) in
  (0 <? List.length labels)%nat && truthy labelName
  && match labelName with
     | JString s => array_includes labels s
     | _ => false
     end = true
  <-> exists lb s, l = Some lb /\ label_name lb = JString s
                   /\ s <> [] /\ In s labels.
Proof.
  cbv zeta. split.
  - intros H. apply andb_true_iff in H. destruct H as [H Hin].
    apply andb_true_iff in H. destruct H as [_ Ht].
    destruct l as [lb|]; cbn [opt_field] in *; [|discriminate Ht].
    unfold or_else in *. destruct (truthy (label_name lb)) eqn:Hl;
      [|discriminate Ht].
    destruct (label_name lb) as [| | | |s|] eqn:Hn; try discriminate Hin.
    exists lb, s. repeat split; auto.
    + intros ->. discriminate Hl.
    + apply array_includes_spec. exact Hin.
  - intros (lb & s & -> & Hn & Hs & Hin). cbn [opt_field]. rewrite Hn.
    unfold or_else. destruct s as [|c s]; [contradiction|].
    cbn [truthy]. destruct labels as [|x labels]; [contradiction|].
    cbn [List.length Nat.ltb Nat.leb andb].
    apply array_includes_spec. exact Hin.
Qed.

(** X1: for an [issues] event with action ["labeled"] and an empty direct
    prompt the evaluator returns true iff the payload's label name is a
    non-empty string that is, exactly, one of the configured label
    triggers.  The issue itself is not read. *)
Theorem label_trigger (rt : Runtime) (context : ParsedGitHubContext) :
  isIssuesEvent context = true ->
  action_is context (js "labeled") = true ->
  directPrompt (ctx_inputs context) = [] ->
  exists o,
    checkContainsTrigger rt context = Ok o
    /\ (returned o = true
        <-> exists lb s,
              label (payload context) = Some lb
              /\ label_name lb = JString s /\ s <> []
              /\ In s (labelTriggers (ctx_inputs context))).
Proof.
  intros Hev Hact Hd.
  pose proof (label_condition (labelTriggers (ctx_inputs context))
                (label (payload context))) as Hc.
  cbv zeta in Hc.
  unfold_rules. rewrite Hd. cbn [non_empty].
  settle_event Hev. settle_action Hact.
  cbn [andb orb member bind].
  destruct ((0 <? List.length (labelTriggers (ctx_inputs context)))%nat
            && truthy (or_else (opt_field label_name
                                  (label (payload context))) (JString [])))
    eqn:H1.
  - destruct (match or_else (opt_field label_name (label (payload context)))
                      (JString []) with
              | JString s => array_includes (labelTriggers (ctx_inputs context)) s
              | _ => false
              end) eqn:H2.
    + eexists. split; [reflexivity|]. cbn [returned]. tauto.
    + eexists. split; [reflexivity|]. cbn [returned].
      rewrite <- Hc. cbn [andb]. tauto.
  - eexists. split; [reflexivity|]. cbn [returned].
    rewrite <- Hc. cbn [andb]. tauto.
Qed.

Lemma label_trigger_witness :
  exists o,
    checkContainsTrigger bare_runtime
      (sample_context (js "issues") (labeled_payload (JString (js "bug")))
         (sample_inputs (js "@claude") [] [] [js "claude"; js "bug"]))
    = Ok o
    /\ returned o = true.
Proof.
  destruct (label_trigger bare_runtime
              (sample_context (js "issues")
                 (labeled_payload (JString (js "bug")))
                 (sample_inputs (js "@claude") [] []
                    [js "claude"; js "bug"])))
    as (o & Ho & Hr); [reflexivity | reflexivity | reflexivity |].
  exists o. split; [exact Ho|]. apply Hr.
  eexists. exists (js "bug").
  split; [reflexivity|]. split; [reflexivity|].
  split; [vm_compute; discriminate | right; left; reflexivity].
Defined.

(** X2: for an [issues] event with action ["opened"] and an empty direct
    prompt the evaluator returns true iff the trigger phrase occurs (between
    the boundaries of the pattern) in the issue body or in the issue title,
    a missing body or title counting as the empty text. *)
Theorem issue_opened_trigger (rt : Runtime) (context : ParsedGitHubContext)
    (i : Issue) :
  isIssuesEvent context = true ->
  action_is context (js "opened") = true ->
  directPrompt (ctx_inputs context) = [] ->
  issue (payload context) = Some i ->
  exists o,
    checkContainsTrigger rt context = Ok o
    /\ (returned o = true
        <-> triggers_in (triggerPhrase (ctx_inputs context))
              (text_of (issue_body i))
            \/ triggers_in (triggerPhrase (ctx_inputs context))
                 (text_of (issue_title i))).
Proof.
  intros Hev Hact Hd Hi.
  pose proof (test_triggers (triggerPhrase (ctx_inputs context))
                (text_of (issue_body i))) as Hb.
  pose proof (test_triggers (triggerPhrase (ctx_inputs context))
                (text_of (issue_title i))) as Ht.
  unfold text_of in *.
  unfold_rules. rewrite Hd, Hi. cbn [non_empty].
  settle_event Hev. settle_action Hact.
  rewrite !PatternFacts.trigger_regex_bounded.
  cbn [andb orb member bind].
  destruct (RegExp.test _ (toString (or_else (issue_body i) (JString []))));
    [eexists; split; [reflexivity|]; cbn [returned]; intuition congruence|].
  destruct (RegExp.test _ (toString (or_else (issue_title i) (JString []))));
    eexists; (split; [reflexivity|]); cbn [returned]; intuition congruence.
Qed.

Lemma issue_opened_trigger_witness :
  exists o,
    checkContainsTrigger bare_runtime
      (sample_context (js "issues")
         (issue_payload (js "opened") (JString (js "Fix bug"))
            (JString (js "Please see @claude for details.")) None)
         plain_inputs) = Ok o
    /\ returned o = true.
Proof.
  destruct (issue_opened_trigger bare_runtime
              (sample_context (js "issues")
                 (issue_payload (js "opened") (JString (js "Fix bug"))
                    (JString (js "Please see @claude for details.")) None)
                 plain_inputs)
              {| issue_number := Int 1; issue_title := JString (js "Fix bug");
                 issue_body := JString (js "Please see @claude for details.");
                 issue_assignee := None;
                 issue_pull_request := JUndefined |})
    as (o & Ho & Hr);
    [reflexivity | reflexivity | reflexivity | reflexivity |].
  exists o. split; [exact Ho|]. apply Hr. left.
  apply test_triggers. reflexivity.
Defined.

(** X3: for a [pull_request] event, whatever its action, with an empty
    direct prompt the evaluator returns true iff the trigger phrase occurs
    in the pull request body or in its title, a missing one counting as
    the empty text. *)
Theorem pull_request_trigger (rt : Runtime) (context : ParsedGitHubContext)
    (pr : PullRequest) :
  isPullRequestEvent context = true ->
  directPrompt (ctx_inputs context) = [] ->
  pull_request (payload context) = Some pr ->
  exists o,
    checkContainsTrigger rt context = Ok o
    /\ (returned o = true
        <-> triggers_in (triggerPhrase (ctx_inputs context))
              (text_of (pr_body pr))
            \/ triggers_in (triggerPhrase (ctx_inputs context))
                 (text_of (pr_title pr))).
Proof.
  intros Hev Hd Hpr.
  pose proof (test_triggers (triggerPhrase (ctx_inputs context))
                (text_of (pr_body pr))) as Hb.
  pose proof (test_triggers (triggerPhrase (ctx_inputs context))
                (text_of (pr_title pr))) as Ht.
  unfold text_of in *.
  unfold_rules. rewrite Hd, Hpr. cbn [non_empty].
  settle_event Hev.
  rewrite !PatternFacts.trigger_regex_bounded.
  cbn [andb orb member bind].
  destruct (RegExp.test _ (toString (or_else (pr_body pr) (JString []))));
    [eexists; split; [reflexivity|]; cbn [returned]; intuition congruence|].
  destruct (RegExp.test _ (toString (or_else (pr_title pr) (JString []))));
    eexists; (split; [reflexivity|]); cbn [returned]; intuition congruence.
Qed.

Lemma pull_request_trigger_witness :
  exists o,
    checkContainsTrigger bare_runtime
      (sample_context (js "pull_request")
         (pr_payload (js "synchronize")
            (JString (js "@claude-review please check")) JNull)
         (sample_inputs (js "@claude-review") [] [] [])) = Ok o
    /\ returned o = true.
Proof.
  destruct (pull_request_trigger bare_runtime
              (sample_context (js "pull_request")
                 (pr_payload (js "synchronize")
                    (JString (js "@claude-review please check")) JNull)
                 (sample_inputs (js "@claude-review") [] [] []))
              {| pr_number := Int 5;
                 pr_title := JString (js "@claude-review please check");
                 pr_body := JNull |})
    as (o & Ho & Hr); [reflexivity | reflexivity | reflexivity |].
  exists o. split; [exact Ho|]. apply Hr. right.
  apply test_triggers. reflexivity.
Defined.

(** X4: for a [pull_request_review] event with an empty direct prompt the
    evaluator returns true iff the action is ["submitted"] or ["edited"]
    and the trigger phrase occurs in the review body (a missing body
    counting as the empty text); a review with any other action, such as
    ["dismissed"], never triggers. *)
Theorem review_trigger (rt : Runtime) (context : ParsedGitHubContext)
    (r : Review) :
  isPullRequestReviewEvent context = true ->
  directPrompt (ctx_inputs context) = [] ->
  review (payload context) = Some r ->
  exists o,
    checkContainsTrigger rt context = Ok o
    /\ (returned o = true
        <-> (action_is context (js "submitted") = true
             \/ action_is context (js "edited") = true)
            /\ triggers_in (triggerPhrase (ctx_inputs context))
                 (text_of (review_body r))).
Proof.
  intros Hev Hd Hr.
  pose proof (test_triggers (triggerPhrase (ctx_inputs context))
                (text_of (review_body r))) as Hb.
  pose proof (orb_true_iff (action_is context (js "submitted"))
                (action_is context (js "edited"))) as Ha.
  unfold text_of in *.
  unfold_rules. rewrite Hd, Hr. cbn [non_empty].
  settle_event Hev.
  rewrite !PatternFacts.trigger_regex_bounded.
  cbn [andb orb member bind].
  destruct (action_is context (js "submitted")
            || action_is context (js "edited")).
  - destruct (RegExp.test _ (toString (or_else (review_body r) (JString []))));
      eexists; (split; [reflexivity|]); cbn [returned]; intuition congruence.
  - eexists. split; [reflexivity|]. cbn [returned]. intuition congruence.
Qed.

Lemma review_trigger_witness :
  exists o,
    checkContainsTrigger bare_runtime
      (sample_context (js "pull_request_review")
         (review_payload (js "dismissed") (JString (js "@claude look")))
         plain_inputs) = Ok o
    /\ returned o = false.
Proof.
  destruct (review_trigger bare_runtime
              (sample_context (js "pull_request_review")
                 (review_payload (js "dismissed")
                    (JString (js "@claude look")))
                 plain_inputs)
              {| review_body := JString (js "@claude look") |})
    as (o & Ho & Hr); [reflexivity | reflexivity | reflexivity |].
  exists o. split; [exact Ho|].
  destruct (returned o); [|reflexivity].
  destruct (proj1 Hr eq_refl) as [[H | H] _]; vm_compute in H; discriminate H.
Defined.

(** X5: for an [issue_comment] or [pull_request_review_comment] event,
    whatever its action, with an empty direct prompt the evaluator returns
    true iff the trigger phrase occurs in the comment body as [ToString]
    renders it. *)
Theorem comment_trigger (rt : Runtime) (context : ParsedGitHubContext)
    (c : Comment) :
  isIssueCommentEvent context = true
  \/ isPullRequestReviewCommentEvent context = true ->
  directPrompt (ctx_inputs context) = [] ->
  comment (payload context) = Some c ->
  exists o,
    checkContainsTrigger rt context = Ok o
    /\ (returned o = true
        <-> triggers_in (triggerPhrase (ctx_inputs context))
              (toString (comment_body c))).
Proof.
  intros Hev Hd Hc.
  pose proof (test_triggers (triggerPhrase (ctx_inputs context))
                (toString (comment_body c))) as Hb.
  unfold_rules. rewrite Hd, Hc. cbn [non_empty].
  destruct Hev as [Hev | Hev]; settle_event Hev;
    rewrite !PatternFacts.trigger_regex_bounded;
    cbn [andb orb member bind];
    destruct (RegExp.test _ (toString (comment_body c)));
    eexists; (split; [reflexivity|]); cbn [returned]; intuition congruence.
Qed.

Lemma comment_trigger_witness :
  exists o,
    checkContainsTrigger bare_runtime
      (sample_context (js "issue_comment")
         (comment_payload (JString two_line_comment)) plain_inputs) = Ok o
    /\ returned o = true.
Proof.
  destruct (comment_trigger bare_runtime
              (sample_context (js "issue_comment")
                 (comment_payload (JString two_line_comment)) plain_inputs)
              {| comment_body := JString two_line_comment |})
    as (o & Ho & Hr); [left; reflexivity | reflexivity | reflexivity |].
  exists o. split; [exact Ho|]. apply Hr.
  apply test_triggers. reflexivity.
Defined.

(** X6: an [issues] event whose action is none of ["assigned"],
    ["labeled"], ["opened"] (or has no action) never triggers without a
    direct prompt, whatever the issue says; the payload is not read. *)
Theorem issues_other_actions_never_trigger (rt : Runtime)
    (context : ParsedGitHubContext) :
  isIssuesEvent context = true ->
  directPrompt (ctx_inputs context) = [] ->
  action_is context (js "assigned") = false ->
  action_is context (js "labeled") = false ->
  action_is context (js "opened") = false ->
  checkContainsTrigger rt context
  = Ok {| returned := false;
          logged := js "No trigger was met for "
                    ++ triggerPhrase (ctx_inputs context) |}.
Proof.
  intros Hev Hd H1 H2 H3.
  unfold_rules. rewrite Hd. cbn [non_empty].
  settle_event Hev. rewrite H1, H2, H3. reflexivity.
Qed.

Lemma issues_other_actions_never_trigger_witness :
  decision
    (checkContainsTrigger bare_runtime
       (sample_context (js "issues")
          (issue_payload (js "edited") (JString (js "@claude"))
             (JString (js "@claude please help")) None)
          plain_inputs))
  = Some false.
Proof.
  rewrite issues_other_actions_never_trigger; reflexivity.
Defined.

(** X7: a context whose event name is none of the seven never triggers
    without a direct prompt and never throws, whatever its payload. *)
Theorem unknown_event_never_triggers (rt : Runtime)
    (context : ParsedGitHubContext) :
  ~ In (eventName context) supported_event_names ->
  directPrompt (ctx_inputs context) = [] ->
  checkContainsTrigger rt context
  = Ok {| returned := false;
          logged := js "No trigger was met for "
                    ++ triggerPhrase (ctx_inputs context) |}.
Proof.
  intros Hn Hd.
  assert (Hf : forall x, In x supported_event_names ->
                         str_eqb (eventName context) x = false).
  { intros x Hx. apply str_eqb_neq. intros Heq. apply Hn.
    rewrite Heq. exact Hx. }
  unfold_rules. unfold_events. rewrite Hd. cbn [non_empty].
  rewrite !Hf by (simpl; tauto). reflexivity.
Qed.

Lemma unknown_event_never_triggers_witness :
  decision
    (checkContainsTrigger bare_runtime
       (sample_context (js "push")
          (comment_payload (JString (js "@claude"))) plain_inputs))
  = Some false.
Proof.
  rewrite unknown_event_never_triggers; [reflexivity | | reflexivity].
  vm_compute. intuition discriminate.
Defined.

(** X9: the ambient overrides ([core.getInput], [process.env]) matter for
    [workflow_dispatch] only: on any other event the outcome is the same
    under every runtime. *)
Theorem overrides_only_for_workflow_dispatch (rt1 rt2 : Runtime)
    (context : ParsedGitHubContext) :
  isWorkflowDispatchEvent context = false ->
  checkContainsTrigger rt1 context = checkContainsTrigger rt2 context.
Proof.
  intros H. unfold checkContainsTrigger. rewrite H. reflexivity.
Qed.

Lemma overrides_only_for_workflow_dispatch_witness :
  checkContainsTrigger bare_runtime
    (sample_context (js "repository_dispatch")
       (repository_payload JUndefined JUndefined JUndefined) plain_inputs)
  = checkContainsTrigger (env_only "PR_NUMBER" (js "12"))
      (sample_context (js "repository_dispatch")
         (repository_payload JUndefined JUndefined JUndefined) plain_inputs).
Proof.
  apply overrides_only_for_workflow_dispatch. reflexivity.
Defined.

Lemma event_cases (context : ParsedGitHubContext) :
  (exists x, In x supported_event_names
             /\ str_eqb (eventName context) x = true)
  \/ (forall x, In x supported_event_names ->
                str_eqb (eventName context) x = false).
Proof.
  destruct (existsb (str_eqb (eventName context)) supported_event_names)
    eqn:H.
  - left. apply existsb_exists in H. exact H.
  - right. intros x Hx.
    destruct (str_eqb (eventName context) x) eqn:Hx'; [|reflexivity].
    rewrite <- H. symmetry. apply existsb_exists. exists x. auto.
Qed.

(** Settle what is left of a run once the event is known: every action
    test, every object of the payload and every remaining condition. *)
Ltac settle_run :=
  cbn [andb orb];
  repeat match goal with
  | |- context [action_is ?c ?a] =>
      let H := fresh "Hact" in
      destruct (action_is c a) eqn:H; [settle_action H|]; cbn [andb orb]
  end;
  repeat match goal with
  | |- context [issue ?p] => destruct (issue p)
  | |- context [pull_request ?p] => destruct (pull_request p)
  | |- context [review ?p] => destruct (review p)
  | |- context [comment ?p] => destruct (comment p)
  end;
  cbn [andb orb member bind];
  repeat match goal with
  | |- context [if ?b then _ else _] => destruct b
  end;
  cbn [andb orb and_then returns falls_through bind].



(** X10: [checkTriggerAction] sets the output [contains_trigger] to
    ["true"] or ["false"], the text of the very value it resolves to, and
    that value is the one [checkContainsTrigger] returns; when
    [checkContainsTrigger] throws, the same exception comes out and no
    output is set. *)
Theorem checkTriggerAction_output (rt : Runtime)
    (context : ParsedGitHubContext) :
  (forall o, checkContainsTrigger rt context = Ok o ->
     exists run,
       checkTriggerAction rt context = Ok run
       /\ resolved run = returned o
       /\ output_name run = "contains_trigger"%string
       /\ (output_value run = js "true" <-> returned o = true)
       /\ (output_value run = js "false" <-> returned o = false))
  /\ (forall e, checkContainsTrigger rt context = Throw e ->
        checkTriggerAction rt context = Throw e).
Proof.
  unfold checkTriggerAction. split.
  - intros o ->. cbn [bind]. eexists. split; [reflexivity|].
    cbn [resolved output_name output_value].
    repeat split; destruct (returned o); try reflexivity;
      intros H; vm_compute in H; discriminate H.
  - intros e ->. reflexivity.
Qed.

Lemma checkTriggerAction_output_witness :
  (exists run,
     checkTriggerAction bare_runtime
       (sample_context (js "issue_comment")
          (comment_payload (JString (js "hi @claude,"))) plain_inputs)
     = Ok run
     /\ output_value run = js "true")
  /\ checkTriggerAction bare_runtime
       (sample_context (js "issue_comment") empty_payload plain_inputs)
     = Throw TypeError.
Proof.
  split.
  - destruct (proj1 (checkTriggerAction_output bare_runtime
                       (sample_context (js "issue_comment")
                          (comment_payload (JString (js "hi @claude,")))
                          plain_inputs)) _ eq_refl)
      as (run & Hrun & _ & _ & Ht & _).
    exists run. split; [exact Hrun|]. apply Ht. reflexivity.
  - apply (proj2 (checkTriggerAction_output bare_runtime
                    (sample_context (js "issue_comment") empty_payload
                       plain_inputs))).
    reflexivity.
Defined.

(* ================================================================== *)
(** * Further properties of the trigger pattern *)
(* ================================================================== *)

Lemma literal_injective (a b : jstring) :
  RegExp.literal a = RegExp.literal b -> a = b.
Proof.
  revert b; induction a as [|x a IH]; intros [|y b] H; try discriminate H;
    [reflexivity|].
  cbn in H. inversion H. f_equal. apply IH. assumption.
Qed.

(** X11: [escapeRegExp] loses nothing: two phrases with the same escaped
    text are the same phrase. *)
Theorem escapeRegExp_injective (a b : jstring) :
  escapeRegExp a = escapeRegExp b -> a = b.
Proof.
  intros H. apply literal_injective.
  assert (Hs : Some (RegExp.literal a) = Some (RegExp.literal b)).
  { rewrite <- !PatternFacts.parse_literal_escapeRegExp. rewrite H.
    reflexivity. }
  inversion Hs. reflexivity.
Qed.

Lemma escapeRegExp_injective_witness :
  js "a.b" = js "a.b" /\ escapeRegExp (js "a.b") <> escapeRegExp (js "a\.b").
Proof.
  split.
  - apply escapeRegExp_injective. reflexivity.
  - intros H. apply escapeRegExp_injective in H. vm_compute in H.
    discriminate H.
Defined.

Lemma escapeRegExp_cons (c : char) (s : jstring) :
  escapeRegExp (c :: s)
  = (if RegExp.is_syntax_char c then [RegExp.backslash; c] else [c])
    ++ escapeRegExp s.
Proof.
  change (escapeRegExp (c :: s))
    with ((if existsb (N.eqb c) (js ".*+?^${}()|[]\")
           then [RegExp.backslash; c] else [c]) ++ escapeRegExp s).
  rewrite PatternFacts.escaped_class_is_syntax. reflexivity.
Qed.

(** X12: [escapeRegExp] leaves a phrase unchanged exactly when the phrase
    has none of the characters [. * + ? ^ $ { } ( ) | [ ] \]; in general
    it adds one backslash per such character, so the escaped text is as
    long as the phrase plus the number of those characters, and escaping
    a concatenation is concatenating the escaped parts. *)
Theorem escapeRegExp_shape (a b : jstring) :
  (escapeRegExp a = a <-> existsb RegExp.is_syntax_char a = false)
  /\ List.length (escapeRegExp a)
     = (List.length a + List.length (filter RegExp.is_syntax_char a))%nat
  /\ escapeRegExp (a ++ b) = escapeRegExp a ++ escapeRegExp b.
Proof.
  assert (Hlen : forall s, List.length (escapeRegExp s)
                 = (List.length s
                    + List.length (filter RegExp.is_syntax_char s))%nat).
  { induction s as [|c s IH]; [reflexivity|].
    rewrite escapeRegExp_cons. cbn [filter].
    destruct (RegExp.is_syntax_char c); cbn [app List.length];
      rewrite IH; lia. }
  split; [|split; [apply Hlen | apply flat_map_app]].
  split.
  - intros H. pose proof (Hlen a) as Hl. rewrite H in Hl.
    assert (Hf : filter RegExp.is_syntax_char a = []).
    { destruct (filter RegExp.is_syntax_char a); [reflexivity|].
      cbn [List.length] in Hl. lia. }
    clear H Hl. induction a as [|c a IH]; [reflexivity|].
    cbn [filter] in Hf. cbn [existsb].
    destruct (RegExp.is_syntax_char c); [discriminate Hf|].
    cbn [orb]. apply IH. exact Hf.
  - induction a as [|c a IH]; [reflexivity|]. cbn [existsb].
    intros H. apply orb_false_iff in H. destruct H as [Hc Ha].
    rewrite escapeRegExp_cons, Hc. cbn [app]. f_equal. apply IH. exact Ha.
Qed.

Lemma white_space_follows (c : char) :
  is_white_space c = true -> trigger_follow_class c = true.
Proof. intros H. unfold trigger_follow_class. rewrite H. reflexivity. Qed.

Lemma shifted_word (x y : char) (l : jstring) :
  x :: l = l ++ [y] -> x = y.
Proof.
  revert x; induction l as [|z l IH]; intros x H; cbn in H.
  - inversion H. reflexivity.
  - inversion H. subst z. apply IH. assumption.
Qed.

Lemma last_cases (l : jstring) :
  l = [] \/ exists l' y, l = l' ++ [y].
Proof.
  induction l as [|y l' _] using rev_ind;
    [left; reflexivity | right; exists l', y; reflexivity].
Qed.

Section SplitAtWhiteSpace.

Variable phrase : jstring.
Variable c : char.
Hypothesis c_space : is_white_space c = true.
Hypothesis c_outside : ~ In c phrase.

Lemma triggers_left (l1 l2 : jstring) :
  triggers_in phrase l1 -> triggers_in phrase (l1 ++ c :: l2).
Proof.
  intros (pre & post & -> & Hpre & Hpost).
  exists pre, (post ++ c :: l2). split; [|split; [exact Hpre|]].
  - rewrite <- !app_assoc. reflexivity.
  - right. destruct Hpost as [-> | (d & post' & -> & Hd)].
    + exists c, l2. split; [reflexivity | apply white_space_follows, c_space].
    + exists d, (post' ++ c :: l2). split; [reflexivity | exact Hd].
Qed.

Lemma triggers_right (l1 l2 : jstring) :
  triggers_in phrase l2 -> triggers_in phrase (l1 ++ c :: l2).
Proof.
  intros (pre & post & -> & Hpre & Hpost).
  exists (l1 ++ c :: pre), post. split; [|split; [|exact Hpost]].
  - rewrite <- app_assoc. reflexivity.
  - right. destruct Hpre as [-> | (pre' & d & -> & Hd)].
    + exists l1, c. split; [reflexivity | exact c_space].
    + exists (l1 ++ c :: pre'), d. split; [|exact Hd].
      rewrite <- app_assoc. reflexivity.
Qed.

Lemma triggers_split (l1 l2 : jstring) :
  triggers_in phrase (l1 ++ c :: l2) ->
  triggers_in phrase l1 \/ triggers_in phrase l2.
Proof.
  intros (pre & post & Heq & Hpre & Hpost).
  symmetry in Heq. apply app_eq_app in Heq.
  destruct Heq as (l & [[Hpre' Hrest] | [Hl1 Hrest]]).
  - (* the break lies before the occurrence *)
    destruct l as [|x l].
    + cbn in Hrest. rewrite app_nil_r in Hpre'. subst pre.
      destruct phrase as [|y ph] eqn:Hph.
      * left. exists l1, []. rewrite app_nil_r. repeat split; auto.
      * exfalso. inversion Hrest. subst y. apply c_outside. left.
        reflexivity.
    + cbn in Hrest. inversion Hrest. subst x. right.
      exists l, post. split; [reflexivity|]. split; [|exact Hpost].
      destruct (last_cases l) as [-> | (l' & y & ->)]; [left; reflexivity|].
      right. exists l', y. split; [reflexivity|].
      destruct Hpre as [Hnil | (pre' & d & Hd & Hws)].
      * rewrite Hnil in Hpre'. destruct l1; discriminate Hpre'.
      * rewrite Hd in Hpre'.
        change (l1 ++ c :: l' ++ [y]) with (l1 ++ (c :: l') ++ [y]) in Hpre'.
        rewrite app_assoc in Hpre'. apply app_inj_tail in Hpre'.
        destruct Hpre' as [_ ->]. exact Hws.
  - (* the break lies in or after the occurrence *)
    apply app_eq_app in Hrest.
    destruct Hrest as (m & [[Hph Hm] | [Hl Hpost']]).
    + destruct m as [|x m].
      * cbn in Hm. rewrite app_nil_r in Hph. subst l. left.
        exists pre, []. rewrite app_nil_r.
        split; [exact Hl1|]. split; [exact Hpre | left; reflexivity].
      * exfalso. cbn in Hm. inversion Hm. subst x. apply c_outside.
        rewrite Hph. apply in_or_app. right. left. reflexivity.
    + left. exists pre, m. split; [rewrite Hl1, Hl; reflexivity|].
      split; [exact Hpre|].
      destruct m as [|x m]; [left; reflexivity|]. right.
      exists x, m. split; [reflexivity|].
      destruct Hpost as [Hnil | (d & post' & Hd & Hf)].
      * rewrite Hnil in Hpost'. discriminate Hpost'.
      * rewrite Hd in Hpost'. cbn in Hpost'. inversion Hpost'.
        subst. exact Hf.
Qed.

End SplitAtWhiteSpace.

(** X13: a text broken at a white-space character that is not part of the
    trigger phrase triggers iff one of the two parts does; so a comment of
    several lines triggers iff one of its lines does, whenever the phrase
    has no line break in it. *)
Theorem trigger_splits_at_white_space (phrase l1 l2 : jstring) (c : char) :
  is_white_space c = true -> ~ In c phrase ->
  exists r,
    trigger_regex phrase = Ok r
    /\ RegExp.test r (l1 ++ c :: l2) = RegExp.test r l1 || RegExp.test r l2.
Proof.
  intros Hc Hout. eexists.
  split; [apply PatternFacts.trigger_regex_bounded|].
  apply eq_true_iff_eq. rewrite orb_true_iff, !test_triggers. split.
  - apply triggers_split; assumption.
  - intros [H | H];
      [apply triggers_left | apply triggers_right]; assumption.
Qed.

Lemma trigger_splits_at_white_space_witness :
  exists r,
    trigger_regex (js "@claude") = Ok r
    /\ RegExp.test r (js "thanks" ++ newline :: js "@claude fix this") = true.
Proof.
  destruct (trigger_splits_at_white_space (js "@claude") (js "thanks")
              (js "@claude fix this") newline)
    as (r & Hr & Ht); [reflexivity | vm_compute; intuition discriminate |].
  exists r. split; [exact Hr|]. rewrite Ht.
  rewrite PatternFacts.trigger_regex_bounded in Hr. inversion Hr.
  reflexivity.
Defined.

(** X14: the phrase alone always triggers, and the phrase with one more
    character right after it triggers exactly when that character is white
    space or one of [. , ! ? ; :]: ["@claude."] does, ["@claudes"] does
    not. *)
Theorem trigger_needs_a_boundary_after (phrase : jstring) (c : char) :
  exists r,
    trigger_regex phrase = Ok r
    /\ RegExp.test r phrase = true
    /\ RegExp.test r (phrase ++ [c]) = trigger_follow_class c.
Proof.
  eexists. split; [apply PatternFacts.trigger_regex_bounded|]. split.
  - apply test_triggers. exists [], []. rewrite app_nil_r.
    repeat split; auto.
  - apply eq_true_iff_eq. rewrite test_triggers. split.
    + intros (pre & post & Heq & Hpre & Hpost).
      assert (Hlen : (List.length pre + List.length post = 1)%nat).
      { apply (f_equal (@List.length char)) in Heq.
        rewrite !length_app in Heq. cbn [List.length] in Heq. lia. }
      destruct pre as [|a pre]; cbn [List.length] in Hlen.
      * destruct Hpost as [-> | (d & post' & -> & Hd)];
          [discriminate Hlen|].
        cbn in Heq. apply app_inv_head in Heq.
        destruct post'; [|discriminate Hlen]. inversion Heq. exact Hd.
      * destruct pre; [|cbn in Hlen; lia].
        destruct post; [|cbn in Hlen; lia].
        rewrite app_nil_r in Heq. cbn in Heq. symmetry in Heq.
        apply shifted_word in Heq. subst a.
        destruct Hpre as [Hnil | (pre' & d & Hd & Hws)];
          [discriminate Hnil|].
        destruct pre' as [|x pre'];
          [|destruct pre'; discriminate Hd].
        inversion Hd. subst d. apply white_space_follows. exact Hws.
    + intros Hf. exists [], [c]. split; [reflexivity|].
      split; [left; reflexivity|]. right. exists c, []. auto.
Qed.

(* ================================================================== *)
(** * Further properties of [parseGitHubContext] *)
(* ================================================================== *)

Lemma supported_dec (name : jstring) :
  In name supported_event_names \/ ~ In name supported_event_names.
Proof.
  destruct (existsb (str_eqb name) supported_event_names) eqn:H.
  - left. apply existsb_exists in H. destruct H as (x & Hx & Heq).
    apply str_eqb_spec in Heq. subst. exact Hx.
  - right. intros Hin.
    assert (Ht : existsb (str_eqb name) supported_event_names = true).
    { apply existsb_exists. exists name. split; [exact Hin|].
      apply str_eqb_refl. }
    congruence.
Qed.

(** What a successful normalisation has read. *)
Lemma parse_ok_inv (rt : Runtime) (ev : Github.Context)
    (ctx : ParsedGitHubContext) :
  parseGitHubContext rt ev = Ok ctx ->
  In (Github.eventName ev) supported_event_names
  /\ entity_present (Github.eventName ev) (Github.payload ev) = true
  /\ exists n b, ctx = commonFields rt ev n b.
Proof.
  intros H.
  destruct (supported_dec (Github.eventName ev)) as [Hin | Hn];
    [|rewrite (parse_unsupported rt ev Hn) in H; discriminate H].
  split; [exact Hin|].
  unfold parseGitHubContext, entity_present in *. simpl in Hin.
  revert H.
  destruct Hin as [<- | [<- | [<- | [<- | [<- | [<- | [<- | []]]]]]]];
    cbn;
    try (destruct (issue (Github.payload ev)); [|discriminate]);
    try (destruct (pull_request (Github.payload ev)); [|discriminate]);
    intros H; inversion H; split; try reflexivity;
    eexists; eexists; reflexivity.
Qed.

Lemma parse_missing_entity (rt : Runtime) (ev : Github.Context) :
  In (Github.eventName ev) supported_event_names ->
  entity_present (Github.eventName ev) (Github.payload ev) = false ->
  parseGitHubContext rt ev = Throw TypeError.
Proof.
  intros Hin. unfold parseGitHubContext, entity_present. simpl in Hin.
  destruct Hin as [<- | [<- | [<- | [<- | [<- | [<- | [<- | []]]]]]]];
    cbn;
    try (destruct (issue (Github.payload ev)); [discriminate|]);
    try (destruct (pull_request (Github.payload ev)); [discriminate|]);
    first [reflexivity | discriminate].
Qed.

Lemma parse_present_entity (rt : Runtime) (ev : Github.Context) :
  In (Github.eventName ev) supported_event_names ->
  entity_present (Github.eventName ev) (Github.payload ev) = true ->
  exists ctx, parseGitHubContext rt ev = Ok ctx.
Proof.
  intros Hin. unfold parseGitHubContext, entity_present. simpl in Hin.
  destruct Hin as [<- | [<- | [<- | [<- | [<- | [<- | [<- | []]]]]]]];
    cbn;
    try (destruct (issue (Github.payload ev)); [|discriminate]);
    try (destruct (pull_request (Github.payload ev)); [|discriminate]);
    intros _; eexists; reflexivity.
Qed.



(** X16: a context that normalisation returns carries the event name and
    the payload of the raw event unchanged, and exactly one of the seven
    event predicates holds on it. *)
Theorem parsed_context_has_one_kind (rt : Runtime) (ev : Github.Context)
    (ctx : ParsedGitHubContext) :
  parseGitHubContext rt ev = Ok ctx ->
  eventName ctx = Github.eventName ev
  /\ payload ctx = Github.payload ev
  /\ List.length (filter (fun b : bool => b) (event_predicates ctx)) = 1%nat.
Proof.
  intros H. apply parse_ok_inv in H.
  destruct H as (Hin & _ & n & b & ->).
  split; [reflexivity|]. split; [reflexivity|].
  unfold event_predicates. unfold_events. cbn [eventName commonFields].
  simpl in Hin.
  destruct Hin as [<- | [<- | [<- | [<- | [<- | [<- | [<- | []]]]]]]];
    reflexivity.
Qed.

Lemma parsed_context_has_one_kind_witness :
  exists ctx,
    parseGitHubContext bare_runtime
      (sample_event (js "issue_comment") (comment_payload JNull)) = Ok ctx
    /\ eventName ctx = js "issue_comment".
Proof.
  eexists. split; [reflexivity|].
  apply (parsed_context_has_one_kind bare_runtime
           (sample_event (js "issue_comment") (comment_payload JNull))).
  reflexivity.
Defined.

(** X17: on a normalised dispatch event ([repository_dispatch] or
    [workflow_dispatch]) that is not flagged as a pull request the entity
    number is 0; put the other way, a dispatch event with any other entity
    number is flagged as a pull request. *)
Theorem dispatch_entity_implies_pr (rt : Runtime) (ev : Github.Context)
    (ctx : ParsedGitHubContext) :
  parseGitHubContext rt ev = Ok ctx ->
  is_dispatch (Github.eventName ev) = true ->
  (isPR ctx = false -> entityNumber ctx = Int 0)
  /\ (entityNumber ctx <> Int 0 -> isPR ctx = true).
Proof.
  intros H Hd.
  assert (Hmain : isPR ctx = false -> entityNumber ctx = Int 0).
  { unfold is_dispatch in Hd. apply orb_true_iff in Hd.
    destruct Hd as [Hd | Hd]; apply str_eqb_spec in Hd.
    - rewrite (parse_repository_dispatch rt ev Hd) in H.
      inversion H. subst ctx. cbn [isPR entityNumber commonFields].
      intros Hf. apply orb_false_iff in Hf. destruct Hf as [_ ->].
      reflexivity.
    - rewrite (parse_workflow_dispatch rt ev Hd) in H.
      inversion H. subst ctx. cbn [isPR entityNumber commonFields].
      intros Hf. apply orb_false_iff in Hf. destruct Hf as [_ ->].
      reflexivity. }
  split; [exact Hmain|].
  intros Hn. destruct (isPR ctx); [reflexivity|].
  exfalso. apply Hn. apply Hmain. reflexivity.
Qed.

Lemma dispatch_entity_implies_pr_witness :
  exists ctx,
    parseGitHubContext bare_runtime
      (sample_event (js "workflow_dispatch")
         (workflow_payload (JString (js "42")))) = Ok ctx
    /\ isPR ctx = true.
Proof.
  eexists. split; [reflexivity|].
  apply (dispatch_entity_implies_pr bare_runtime
           (sample_event (js "workflow_dispatch")
              (workflow_payload (JString (js "42")))));
    [reflexivity | reflexivity |].
  vm_compute. discriminate.
Defined.

(* ------------------------------------------------------------------ *)
(** ** The parsed lists *)

Lemma trimStart_decompose (s : jstring) :
  exists w, s = w ++ trimStart s.
Proof.
  induction s as [|c s (w & IH)]; [exists []; reflexivity|].
  cbn [trimStart]. destruct (is_white_space c).
  - exists (c :: w). cbn. f_equal. exact IH.
  - exists []. reflexivity.
Qed.

Lemma trimStart_head (s t : jstring) (c : char) :
  trimStart s = c :: t -> is_white_space c = false.
Proof.
  induction s as [|d s IH]; [discriminate|]. cbn [trimStart].
  destruct (is_white_space d) eqn:Hd; [exact IH|].
  intros H. inversion H. subst. exact Hd.
Qed.

Lemma trimStart_fixed (s : jstring) :
  (forall c t, s = c :: t -> is_white_space c = false) -> trimStart s = s.
Proof.
  destruct s as [|c s]; [reflexivity|]. intros H. cbn [trimStart].
  rewrite (H c s eq_refl). reflexivity.
Qed.

Lemma trimStart_idempotent (s : jstring) :
  trimStart (trimStart s) = trimStart s.
Proof.
  apply trimStart_fixed. intros c t H. apply (trimStart_head s t c H).
Qed.

Lemma In_trimStart (x : char) (s : jstring) :
  In x (trimStart s) -> In x s.
Proof.
  destruct (trimStart_decompose s) as (w & Hw). intros H.
  rewrite Hw. apply in_or_app. right. exact H.
Qed.

Lemma In_trim (x : char) (s : jstring) : In x (trim s) -> In x s.
Proof.
  unfold trim, trimEnd. intros H. apply in_rev in H.
  apply In_trimStart in H. apply in_rev in H.
  apply In_trimStart in H. exact H.
Qed.

(** A trimmed string is left alone by [trim]. *)
Lemma trim_idempotent (s : jstring) : trim (trim s) = trim s.
Proof.
  unfold trim, trimEnd.
  set (y := trimStart s). set (u := trimStart (rev y)).
  assert (Hstart : trimStart (rev u) = rev u).
  { apply trimStart_fixed. intros c t Hc.
    destruct (trimStart_decompose (rev y)) as (w & Hw). fold u in Hw.
    apply (f_equal (@rev char)) in Hw.
    rewrite rev_involutive, rev_app_distr, Hc in Hw. cbn in Hw.
    apply (trimStart_head s (t ++ rev w) c). fold y. exact Hw. }
  rewrite Hstart, rev_involutive. unfold u.
  rewrite trimStart_idempotent. reflexivity.
Qed.

Lemma split_pieces (sep : char) (s : jstring) (piece : jstring) :
  In piece (split sep s) ->
  ~ In sep piece /\ forall x, In x piece -> In x s.
Proof.
  revert piece; induction s as [|c s IH]; intros piece; cbn [split].
  - intros [<- | []]. split; [intros [] | intros x []].
  - destruct (N.eqb_spec c sep) as [-> | Hc].
    + intros [<- | H]; [split; [intros [] | intros x []]|].
      destruct (IH piece H) as [H1 H2]. split; [exact H1|].
      intros x Hx. right. apply H2. exact Hx.
    + destruct (split sep s) as [|w ws].
      * intros [<- | []]. split.
        -- intros [H | []]. congruence.
        -- intros x [<- | []]. left. reflexivity.
      * intros [<- | H].
        -- destruct (IH w (or_introl eq_refl)) as [H1 H2]. split.
           ++ intros [Heq | Hin]; [congruence | contradiction].
           ++ intros x [<- | Hx]; [left; reflexivity | right; auto].
        -- destruct (IH piece (or_intror H)) as [H1 H2]. split; [exact H1|].
           intros x Hx. right. apply H2. exact Hx.
Qed.

Lemma split_trim_filter_elements (sep : char) (s x : jstring) :
  In x (split_trim_filter sep s) ->
  x <> [] /\ trim x = x /\ ~ In sep x /\ forall c, In c x -> In c s.
Proof.
  unfold split_trim_filter. intros H. apply filter_In in H.
  destruct H as [H Hne]. apply in_map_iff in H.
  destruct H as (piece & <- & Hp).
  destruct (split_pieces sep s piece Hp) as [H1 H2].
  split; [apply non_empty_spec; exact Hne|].
  split; [apply trim_idempotent|].
  split.
  - intros Hin. apply H1. apply In_trim. exact Hin.
  - intros c Hc. apply H2. apply In_trim. exact Hc.
Qed.

Lemma includes_char_spec (c : char) (s : jstring) :
  includes_char c s = true <-> In c s.
Proof.
  unfold includes_char. rewrite existsb_exists. split.
  - intros (x & Hx & Heq). apply N.eqb_eq in Heq. subst. exact Hx.
  - intros H. exists c. split; [exact H | apply N.eqb_refl].
Qed.

Lemma labelTriggers_elements (rt : Runtime) (x : jstring) :
  In x (parse_labelTriggers rt) ->
  x <> [] /\ trim x = x /\ ~ In newline x.
Proof.
  unfold parse_labelTriggers.
  destruct (negb (non_empty (env_or rt "LABEL_TRIGGER" []))); [intros []|].
  destruct (includes_char newline (env_or rt "LABEL_TRIGGER" [])) eqn:Hnl;
    intros H; apply split_trim_filter_elements in H;
    destruct H as (H1 & H2 & H3 & H4); repeat split; auto.
  intros Hin. apply H4 in Hin. apply includes_char_spec in Hin. congruence.
Qed.

(** X18: in a context that normalisation returns, every label trigger,
    every allowed tool and every disallowed tool is a non-empty string
    without white space at either end ([trim] leaves it unchanged). *)
Theorem parsed_lists_are_trimmed (rt : Runtime) (ev : Github.Context)
    (ctx : ParsedGitHubContext) (x : jstring) :
  parseGitHubContext rt ev = Ok ctx ->
  In x (labelTriggers (ctx_inputs ctx))
  \/ In x (allowedTools (ctx_inputs ctx))
  \/ In x (disallowedTools (ctx_inputs ctx)) ->
  x <> [] /\ trim x = x.
Proof.
  intros H. apply parse_ok_inv in H. destruct H as (_ & _ & n & b & ->).
  cbn [ctx_inputs commonFields labelTriggers allowedTools disallowedTools].
  intros [Hx | [Hx | Hx]].
  - apply labelTriggers_elements in Hx. tauto.
  - apply split_trim_filter_elements in Hx. tauto.
  - apply split_trim_filter_elements in Hx. tauto.
Qed.

Lemma parsed_lists_are_trimmed_witness :
  trim (js "b") = js "b".
Proof.
  apply (parsed_lists_are_trimmed
           (env_only "ALLOWED_TOOLS" (js " a ,  b , "))
           (sample_event (js "issue_comment") (comment_payload JNull))
           (commonFields (env_only "ALLOWED_TOOLS" (js " a ,  b , "))
              (sample_event (js "issue_comment") (comment_payload JNull))
              (Int 1) false) (js "b")).
  - reflexivity.
  - right. left.
    change (In (js "b") [js "a"; js "b"]). right. left. reflexivity.
Defined.

(** X19: in a context that normalisation returns, no label trigger contains
    a line break and no allowed or disallowed tool contains a comma: the
    separator never survives into an element. *)
Theorem parsed_lists_have_no_separator (rt : Runtime) (ev : Github.Context)
    (ctx : ParsedGitHubContext) (x : jstring) :
  parseGitHubContext rt ev = Ok ctx ->
  (In x (labelTriggers (ctx_inputs ctx)) -> ~ In newline x)
  /\ (In x (allowedTools (ctx_inputs ctx)) -> ~ In comma x)
  /\ (In x (disallowedTools (ctx_inputs ctx)) -> ~ In comma x).
Proof.
  intros H. apply parse_ok_inv in H. destruct H as (_ & _ & n & b & ->).
  cbn [ctx_inputs commonFields labelTriggers allowedTools disallowedTools].
  split; [|split]; intros Hx.
  - apply labelTriggers_elements in Hx. tauto.
  - apply split_trim_filter_elements in Hx. tauto.
  - apply split_trim_filter_elements in Hx. tauto.
Qed.

Lemma parsed_lists_have_no_separator_witness :
  ~ In comma a_b_c_lines.
Proof.
  refine (proj1 (proj2 (parsed_lists_have_no_separator
           (env_only "ALLOWED_TOOLS" a_b_c_lines)
           (sample_event (js "issue_comment") (comment_payload JNull))
           (commonFields (env_only "ALLOWED_TOOLS" a_b_c_lines)
              (sample_event (js "issue_comment") (comment_payload JNull))
              (Int 1) false) a_b_c_lines _)) _).
  - reflexivity.
  - change (In a_b_c_lines [a_b_c_lines]). left. reflexivity.
Defined.

(* ================================================================== *)
(** * Normalisation followed by evaluation *)
(* ================================================================== *)

(** Decide the tests between two event names or actions that are both
    known. *)
Ltac settle_names :=
  repeat match goal with
  | |- context [str_eqb (js ?a) (js ?b)] =>
      let v := eval vm_compute in (str_eqb (js a) (js b)) in
      change (str_eqb (js a) (js b)) with v
  end.

Lemma checkContainsTrigger_ok (rt : Runtime) (context : ParsedGitHubContext) :
  well_shaped (eventName context) (payload context) = true ->
  exists o, checkContainsTrigger rt context = Ok o.
Proof.
  intros Hw. unfold checkContainsTrigger.
  destruct (non_empty (directPrompt (ctx_inputs context)));
    [eexists; reflexivity|].
  destruct (isWorkflowDispatchEvent context).
  { unfold workflow_dispatch_rule.
    repeat match goal with
    | |- context [if ?c then _ else _] => destruct c
    end; eexists; reflexivity. }
  destruct (isRepositoryDispatchEvent context).
  { unfold repository_dispatch_rule.
    repeat match goal with
    | |- context [if ?c then _ else _] => destruct c
    end; eexists; reflexivity. }
  apply and_then_ok; [apply assignee_rule_ok; exact Hw|].
  apply and_then_ok; [apply label_rule_ok|].
  apply and_then_ok; [apply issue_opened_rule_ok; exact Hw|].
  apply and_then_ok; [apply pull_request_rule_ok; exact Hw|].
  apply and_then_ok; [apply review_rule_ok; exact Hw|].
  apply and_then_ok; [apply comment_rule_ok; exact Hw|].
  eexists; reflexivity.
Qed.

Lemma well_shaped_entity (name : jstring) (p : Payload) :
  In name supported_event_names ->
  well_shaped name p = true -> entity_present name p = true.
Proof.
  intros Hin. unfold well_shaped, entity_present. simpl in Hin.
  destruct Hin as [<- | [<- | [<- | [<- | [<- | [<- | [<- | []]]]]]]];
    cbn;
    try (destruct (issue p); [|discriminate]);
    try (destruct (pull_request p); [|discriminate]);
    reflexivity.
Qed.



(** X21: when the environment variable [DIRECT_PROMPT] is set to a
    non-empty text, every event that normalisation accepts triggers. *)
Theorem pipeline_direct_prompt (rt : Runtime) (ev : Github.Context)
    (ctx : ParsedGitHubContext) (s : jstring) :
  env rt "DIRECT_PROMPT" = Some s -> s <> [] ->
  parseGitHubContext rt ev = Ok ctx ->
  checkContainsTrigger rt ctx
  = Ok {| returned := true;
          logged := js "Direct prompt provided, triggering action" |}.
Proof.
  intros He Hs H. apply parse_ok_inv in H.
  destruct H as (_ & _ & n & b & ->).
  unfold checkContainsTrigger.
  cbn [ctx_inputs commonFields directPrompt]. unfold env_or. rewrite He.
  destruct s; [contradiction | reflexivity].
Qed.

Lemma pipeline_direct_prompt_witness :
  checkContainsTrigger (env_only "DIRECT_PROMPT" (js "review this"))
    (commonFields (env_only "DIRECT_PROMPT" (js "review this"))
       (sample_event (js "issue_comment") (comment_payload JNull))
       (Int 1) false)
  = Ok {| returned := true;
          logged := js "Direct prompt provided, triggering action" |}.
Proof.
  apply (pipeline_direct_prompt (env_only "DIRECT_PROMPT" (js "review this"))
           (sample_event (js "issue_comment") (comment_payload JNull)) _
           (js "review this")).
  - reflexivity.
  - vm_compute. discriminate.
  - reflexivity.
Defined.

(** X22: with [TRIGGER_PHRASE] unset and no direct prompt, an
    [issue_comment] event is normalised and triggers iff the default
    phrase ["@claude"] occurs in the comment body. *)
Theorem pipeline_default_phrase (rt : Runtime) (ev : Github.Context)
    (i : Issue) (c : Comment) :
  env rt "TRIGGER_PHRASE" = None ->
  env_or rt "DIRECT_PROMPT" [] = [] ->
  Github.eventName ev = js "issue_comment" ->
  issue (Github.payload ev) = Some i ->
  comment (Github.payload ev) = Some c ->
  exists ctx o,
    parseGitHubContext rt ev = Ok ctx
    /\ checkContainsTrigger rt ctx = Ok o
    /\ (returned o = true
        <-> triggers_in (js "@claude") (toString (comment_body c))).
Proof.
  intros Hp Hd Hn Hi Hc.
  pose proof (test_triggers (js "@claude") (toString (comment_body c)))
    as Hb.
  exists (commonFields rt ev (issue_number i)
            (truthy (issue_pull_request i))).
  rewrite (parse_issue_comment rt ev i Hn Hi).
  unfold_rules. unfold_events.
  cbn [ctx_inputs commonFields directPrompt triggerPhrase eventName
       payload eventAction].
  rewrite Hd, Hn, Hc. unfold env_or. rewrite Hp.
  cbn [non_empty]. settle_names.
  rewrite !PatternFacts.trigger_regex_bounded.
  cbn [andb orb member bind].
  destruct (RegExp.test _ (toString (comment_body c)));
    eexists; (split; [reflexivity|]); (split; [reflexivity|]);
    cbn [returned]; intuition congruence.
Qed.

Lemma pipeline_default_phrase_witness :
  exists ctx o,
    parseGitHubContext bare_runtime
      (sample_event (js "issue_comment")
         (comment_payload (JString (js "hi @claude,")))) = Ok ctx
    /\ checkContainsTrigger bare_runtime ctx = Ok o
    /\ returned o = true.
Proof.
  destruct (pipeline_default_phrase bare_runtime
              (sample_event (js "issue_comment")
                 (comment_payload (JString (js "hi @claude,"))))
              {| issue_number := Int 1;
                 issue_title := JString (js "Fix bug");
                 issue_body := JNull; issue_assignee := None;
                 issue_pull_request := JUndefined |}
              {| comment_body := JString (js "hi @claude,") |})
    as (ctx & o & Hctx & Ho & Hr);
    [reflexivity | reflexivity | reflexivity | reflexivity | reflexivity |].
  exists ctx, o. split; [exact Hctx|]. split; [exact Ho|].
  apply Hr. apply test_triggers. reflexivity.
Defined.

(** X23: a normalised dispatch event whose entity number is not 0 always
    triggers: the PR number that gave the entity number is the one the
    evaluator looks for first. *)
Theorem dispatch_with_entity_triggers (rt : Runtime) (ev : Github.Context)
    (ctx : ParsedGitHubContext) :
  parseGitHubContext rt ev = Ok ctx ->
  is_dispatch (Github.eventName ev) = true ->
  entityNumber ctx <> Int 0 ->
  exists o, checkContainsTrigger rt ctx = Ok o /\ returned o = true.
Proof.
  intros H Hd Hn. unfold is_dispatch in Hd. apply orb_true_iff in Hd.
  destruct Hd as [Hd | Hd]; apply str_eqb_spec in Hd.
  - rewrite (parse_repository_dispatch rt ev Hd) in H.
    inversion H. subst ctx. clear H.
    cbn [entityNumber commonFields] in Hn.
    destruct (truthy (opt_field cp_pr_number
                        (client_payload (Github.payload ev)))) eqn:Hpr;
      [|contradiction Hn; reflexivity].
    unfold checkContainsTrigger.
    destruct (non_empty _); [eexists; split; reflexivity|].
    unfold_events. cbn [eventName commonFields]. rewrite Hd. settle_names.
    cbv iota. unfold repository_dispatch_rule.
    cbn [payload commonFields]. rewrite Hpr.
    eexists; split; reflexivity.
  - rewrite (parse_workflow_dispatch rt ev Hd) in H.
    inversion H. subst ctx. clear H.
    cbn [entityNumber commonFields] in Hn.
    destruct (truthy (opt_field in_pr_number
                        (inputs (Github.payload ev)))) eqn:Hpr;
      [|contradiction Hn; reflexivity].
    unfold checkContainsTrigger.
    destruct (non_empty _); [eexists; split; reflexivity|].
    unfold_events. cbn [eventName commonFields]. rewrite Hd. settle_names.
    cbv iota. unfold workflow_dispatch_rule.
    cbn [payload commonFields]. rewrite !truthy_or_else, Hpr.
    cbn [orb]. eexists; split; reflexivity.
Qed.

Lemma dispatch_with_entity_triggers_witness :
  exists o,
    checkContainsTrigger bare_runtime
      (commonFields bare_runtime
         (sample_event (js "workflow_dispatch")
            (workflow_payload (JString (js "42"))))
         (Int 42) true) = Ok o
    /\ returned o = true.
Proof.
  apply (dispatch_with_entity_triggers bare_runtime
           (sample_event (js "workflow_dispatch")
              (workflow_payload (JString (js "42"))))).
  - reflexivity.
  - reflexivity.
  - cbn [entityNumber commonFields]. discriminate.
Defined.

(** X24: with no direct prompt, an [issues] event with action ["labeled"]
    is normalised and triggers iff the label name is a non-empty string
    that is one of the elements the [LABEL_TRIGGER] source parses to; in
    particular a label name with white space at either end never
    triggers. *)
Theorem pipeline_label_trigger (rt : Runtime) (ev : Github.Context)
    (i : Issue) (lb : Label) (s : jstring) :
  env_or rt "DIRECT_PROMPT" [] = [] ->
  Github.eventName ev = js "issues" ->
  action (Github.payload ev) = Some (js "labeled") ->
  issue (Github.payload ev) = Some i ->
  label (Github.payload ev) = Some lb ->
  label_name lb = JString s ->
  exists ctx o,
    parseGitHubContext rt ev = Ok ctx
    /\ checkContainsTrigger rt ctx = Ok o
    /\ (returned o = true
        <-> s <> []
            /\ In s (delimited_list_policy (env_or rt "LABEL_TRIGGER" [])))
    /\ (trim s <> s -> returned o = false).
Proof.
  intros Hd Hn Ha Hi Hl Hs.
  pose proof (label_condition (parse_labelTriggers rt) (Some lb)) as Hc.
  cbv zeta in Hc. cbn [opt_field] in Hc. rewrite Hs in Hc.
  assert (Hiff : (exists lb0 s0, Some lb = Some lb0
                    /\ label_name lb0 = JString s0 /\ s0 <> []
                    /\ In s0 (parse_labelTriggers rt))
                 <-> s <> [] /\ In s (parse_labelTriggers rt)).
  { split.
    - intros (lb0 & s0 & Hlb & Hs0 & Hne & Hin). inversion Hlb. subst lb0.
      rewrite Hs in Hs0. inversion Hs0. subst s0. auto.
    - intros [Hne Hin]. exists lb, s. auto. }
  rewrite Hiff in Hc. clear Hiff.
  assert (Htrim : In s (parse_labelTriggers rt) -> trim s = s).
  { intros Hin. apply labelTriggers_elements in Hin. tauto. }
  rewrite <- (labelTriggers_policy rt).
  exists (commonFields rt ev (issue_number i) false).
  rewrite (parse_issues rt ev i Hn Hi).
  unfold_rules. unfold_events. unfold action_is.
  cbn [ctx_inputs commonFields directPrompt labelTriggers eventName
       payload eventAction].
  rewrite Hd, Hn, Ha, Hl. cbn [non_empty opt_field]. rewrite Hs.
  settle_names. cbn [andb orb member bind].
  destruct ((0 <? List.length (parse_labelTriggers rt))%nat
            && truthy (or_else (JString s) (JString []))) eqn:H1.
  - destruct (match or_else (JString s) (JString []) with
              | JString s0 => array_includes (parse_labelTriggers rt) s0
              | _ => false
              end) eqn:H2.
    + eexists. split; [reflexivity|]. split; [reflexivity|].
      cbn [returned andb] in *. split; [tauto|].
      intros Hne. exfalso. apply Hne. apply Htrim. tauto.
    + eexists. split; [reflexivity|]. split; [reflexivity|].
      cbn [returned andb] in *. split; [|reflexivity].
      rewrite <- Hc. intuition congruence.
  - eexists. split; [reflexivity|]. split; [reflexivity|].
    cbn [returned andb] in *. split; [|reflexivity].
    rewrite <- Hc. intuition congruence.
Qed.

Lemma pipeline_label_trigger_witness :
  exists ctx o,
    parseGitHubContext (env_only "LABEL_TRIGGER" (js "claude, bug"))
      (sample_event (js "issues") (labeled_payload (JString (js "bug"))))
    = Ok ctx
    /\ checkContainsTrigger (env_only "LABEL_TRIGGER" (js "claude, bug")) ctx
       = Ok o
    /\ returned o = true.
Proof.
  destruct (pipeline_label_trigger
              (env_only "LABEL_TRIGGER" (js "claude, bug"))
              (sample_event (js "issues")
                 (labeled_payload (JString (js "bug"))))
              {| issue_number := Int 1;
                 issue_title := JString (js "Fix bug");
                 issue_body := JNull; issue_assignee := None;
                 issue_pull_request := JUndefined |}
              {| label_name := JString (js "bug") |} (js "bug"))
    as (ctx & o & Hctx & Ho & Hr & _);
    [reflexivity | reflexivity | reflexivity | reflexivity | reflexivity
    | reflexivity |].
  exists ctx, o. split; [exact Hctx|]. split; [exact Ho|].
  apply Hr. split; [vm_compute; discriminate|].
  change (In (js "bug") [js "claude"; js "bug"]). right. left. reflexivity.
Defined.

(** X25: the configuration of a normalised context (trigger phrase,
    assignee trigger, the three lists, custom instructions, direct prompt,
    base branch) and its run id come from the environment alone: two
    events normalised under the same runtime get the same ones, whatever
    their kinds and payloads. *)
Theorem configuration_ignores_event (rt : Runtime)
    (ev1 ev2 : Github.Context) (c1 c2 : ParsedGitHubContext) :
  parseGitHubContext rt ev1 = Ok c1 ->
  parseGitHubContext rt ev2 = Ok c2 ->
  ctx_inputs c1 = ctx_inputs c2 /\ runId c1 = runId c2.
Proof.
  intros H1 H2. apply parse_ok_inv in H1. apply parse_ok_inv in H2.
  destruct H1 as (_ & _ & n1 & b1 & ->).
  destruct H2 as (_ & _ & n2 & b2 & ->).
  split; reflexivity.
Qed.

Lemma configuration_ignores_event_witness :
  ctx_inputs
    (commonFields bare_runtime
       (sample_event (js "issue_comment") (comment_payload JNull))
       (Int 1) false)
  = ctx_inputs
      (commonFields bare_runtime
         (sample_event (js "workflow_dispatch")
            (workflow_payload (JString (js "42"))))
         (Int 42) true).
Proof.
  apply (configuration_ignores_event bare_runtime
           (sample_event (js "issue_comment") (comment_payload JNull))
           (sample_event (js "workflow_dispatch")
              (workflow_payload (JString (js "42")))));
    reflexivity.
Defined.

Lemma or_else_chain (a b c : value) :
  or_else (or_else a b) c
  = if truthy a then a else if truthy b then b else c.
Proof.
  unfold or_else. destruct (truthy a) eqn:Ha; [rewrite Ha; reflexivity|].
  destruct (truthy b) eqn:Hb; reflexivity.
Qed.

(** X26: on a [workflow_dispatch] event without a direct prompt the PR
    number named in the log is the first one present in the order
    dispatch input, action input [pr_number], environment variable
    [PR_NUMBER]: an override is used only when everything before it is
    empty. *)
Theorem workflow_dispatch_pr_priority (rt : Runtime)
    (context : ParsedGitHubContext) :
  let from_inputs := opt_field in_pr_number (inputs (payload context)) in
  let line v := js "Workflow dispatch triggered for PR #" ++ toString v in
  isWorkflowDispatchEvent context = true ->
  directPrompt (ctx_inputs context) = [] ->
  exists o,
    checkContainsTrigger rt context = Ok o
    /\ (truthy from_inputs = true -> logged o = line from_inputs)
    /\ (truthy from_inputs = false -> getInput rt "pr_number" <> [] ->
        logged o = line (JString (getInput rt "pr_number")))
    /\ (forall s, truthy from_inputs = false ->
        getInput rt "pr_number" = [] ->
        env rt "PR_NUMBER" = Some s -> s <> [] ->
        logged o = line (JString s)).
Proof.
  intros from_inputs line Hev Hd.
  unfold checkContainsTrigger. rewrite Hd. cbn [non_empty]. rewrite Hev.
  unfold workflow_dispatch_rule. fold from_inputs.
  rewrite (or_else_chain from_inputs). unfold env_value.
  destruct (truthy from_inputs) eqn:Hi.
  - rewrite Hi. eexists. split; [reflexivity|]. cbn [logged].
    split; [reflexivity|]. split; discriminate.
  - destruct (getInput rt "pr_number") as [|g gs] eqn:Hg; cbn [truthy].
    + destruct (env rt "PR_NUMBER") as [[|e es]|] eqn:He; cbn [truthy].
      * match goal with
        | |- context [if ?c then _ else _] => destruct c
        end; eexists; (split; [reflexivity|]);
          (split; [discriminate|]); (split; [congruence|]);
          intros s _ _ Hs Hne; congruence.
      * eexists. split; [reflexivity|]. cbn [logged].
        split; [discriminate|]. split; [congruence|].
        intros s _ _ Hs _. inversion Hs. reflexivity.
      * match goal with
        | |- context [if ?c then _ else _] => destruct c
        end; eexists; (split; [reflexivity|]);
          (split; [discriminate|]); (split; [congruence|]);
          intros s _ _ Hs Hne; discriminate Hs.
    + eexists. split; [reflexivity|]. cbn [logged].
      split; [discriminate|]. split; [reflexivity|].
      intros s _ Hn. discriminate Hn.
Qed.

Lemma workflow_dispatch_pr_priority_witness :
  exists o,
    checkContainsTrigger (env_only "PR_NUMBER" (js "12"))
      (sample_context (js "workflow_dispatch")
         (workflow_payload (JString (js "42"))) plain_inputs) = Ok o
    /\ logged o = js "Workflow dispatch triggered for PR #42".
Proof.
  destruct (workflow_dispatch_pr_priority (env_only "PR_NUMBER" (js "12"))
              (sample_context (js "workflow_dispatch")
                 (workflow_payload (JString (js "42"))) plain_inputs))
    as (o & Ho & Hl & _); [reflexivity | reflexivity |].
  exists o. split; [exact Ho|]. apply Hl. reflexivity.
Defined.
